(** * MS5611 barometer driver (libraries/ms5611/ms5611.cpp)

    A shallow embedding of the driver: the fixed-width integer arithmetic
    of the compensation routine, the two-phase sampler, the flag mutex
    shared with the timer interrupt, and the public functions, followed by
    the properties established about them. *)

From Stdlib Require Import ZArith List Bool Lia QArith.
From Stdlib.Strings Require Import Byte.
From Stdlib Require Import Reals Qreals Lra.
Import ListNotations.

Local Open Scope Z_scope.

(** ** Fixed-width integers

    The C types are modelled as [Z] with the conversion to the type written
    out.  Signed overflow is undefined in C; the target compilers (avr-gcc,
    arm-gcc) produce the two's complement result, which is what [to_int32]
    and [to_int64] compute.  [>>] on a negative signed value is the
    arithmetic shift, i.e. [Z.shiftr]. *)
Module Fixed.

Definition to_uint (w : Z) (x : Z) : Z := x mod 2 ^ w.

Definition to_sint (w : Z) (x : Z) : Z :=
  (x + 2 ^ (w - 1)) mod 2 ^ w - 2 ^ (w - 1).

Definition to_uint16 := to_uint 16.
Definition to_uint32 := to_uint 32.
Definition to_int32 := to_sint 32.
Definition to_int64 := to_sint 64.

Definition fits_sint (w : Z) (x : Z) : Prop :=
  - 2 ^ (w - 1) <= x < 2 ^ (w - 1).

Definition fits_int32 := fits_sint 32.

End Fixed.
Import Fixed.

(** ** The compensation arithmetic of [ms5611_updateData] (lines 232-301)

    Every assignment of the source is one [let]; the conversion applied is
    that of the C type of the assigned variable. *)

Record first_order := {
  fo_dt : Z;     (* int32_t dt *)
  fo_temp : Z;   (* int32_t temp *)
  fo_off : Z;    (* int64_t off *)
  fo_sens : Z    (* int64_t sens *)
}.

Record compensated := {
  out_temp : Z;  (* int32_t temp, at line 305 *)
  out_p : Z      (* int64_t p, at line 306 *)
}.

(** Lines 233-266. *)
Definition compute_first_order (c1 c2 c3 c4 c5 c6 d2 : Z) : first_order :=
  let c5s := to_int32 c5 in
  let c5s := to_int32 (Z.shiftl c5s 8) in
  (* d2 is uint32_t: the difference is taken in uint32_t, then stored *)
  let dt := to_int32 (to_uint32 (d2 - c5s)) in
  let c6s := to_int32 c6 in
  let c6s := to_int32 (c6s * dt) in
  let c6s := Z.shiftr c6s 23 in
  let temp := to_int32 (2000 + c6s) in
  let c2d := to_int64 c2 in
  let c2d := to_int64 (Z.shiftl c2d 16) in
  let c4d := to_int64 c4 in
  let c4d := to_int64 (c4d * dt) in
  let c4d := Z.shiftr c4d 7 in
  let off := to_int64 (c2d + c4d) in
  let c1d := to_int64 c1 in
  let c1d := to_int64 (Z.shiftl c1d 15) in
  let c3d := to_int64 c3 in
  let c3d := to_int64 (c3d * dt) in
  let c3d := Z.shiftr c3d 8 in
  let sens := to_int64 (c1d + c3d) in
  {| fo_dt := dt; fo_temp := temp; fo_off := off; fo_sens := sens |}.

(** Lines 268-294: the block guarded by [temp < 2000]. *)
Definition second_order (f : first_order) : first_order :=
  let dt := fo_dt f in
  let temp := fo_temp f in
  let off := fo_off f in
  let sens := fo_sens f in
  if temp <? 2000 then
    let t2 := to_int64 dt in
    let t2 := to_int64 (t2 * t2) in
    let t2 := Z.shiftr t2 31 in
    let off2 := to_int64 (to_int32 (temp - 2000)) in
    let off2 := to_int64 (off2 * off2) in
    let off2 := to_int64 (off2 * 5) in
    let sens2 := off2 in
    let off2 := Z.shiftr off2 1 in
    let sens2 := Z.shiftr sens2 2 in
    let '(off2, sens2) :=
      if temp <? -1500 then
        let dtemp := to_int64 (to_int32 (temp + 1500)) in
        let dtemp := to_int64 (dtemp * dtemp) in
        let off2 := to_int64 (off2 + to_int64 (7 * dtemp)) in
        let dtemp := to_int64 (dtemp * 11) in
        let dtemp := Z.shiftr dtemp 1 in
        let sens2 := to_int64 (sens2 + dtemp) in
        (off2, sens2)
      else (off2, sens2) in
    let temp := to_int32 (to_int64 (temp - t2)) in
    let off := to_int64 (off - off2) in
    let sens := to_int64 (sens - sens2) in
    {| fo_dt := dt; fo_temp := temp; fo_off := off; fo_sens := sens |}
  else f.

(** Lines 296-301. *)
Definition compute_pressure (d1 : Z) (f : first_order) : compensated :=
  let p := to_int64 (d1 * fo_sens f) in
  let p := Z.shiftr p 21 in
  let p := to_int64 (p - fo_off f) in
  {| out_temp := fo_temp f; out_p := p |}.

Definition compensate (c1 c2 c3 c4 c5 c6 d1 d2 : Z) : compensated :=
  compute_pressure d1 (second_order (compute_first_order c1 c2 c3 c4 c5 c6 d2)).

(** ** The reference algorithm, in unbounded integers

    This definition follows the algorithm as the design document states it
    (section 4.3), with every operation on mathematical integers.  Its
    line [TEMP = 2000 + (C6 * dT) >> 23] is read as the data sheet has it,
    the shift applying to the product. *)
Module Reference.

Record ref_out := { TEMP : Z; P : Z }.

Definition dT (c5 d2 : Z) : Z := d2 - Z.shiftl c5 8.

Definition TEMP1 (c5 c6 d2 : Z) : Z := 2000 + Z.shiftr (c6 * dT c5 d2) 23.

Definition OFF1 (c2 c4 c5 d2 : Z) : Z :=
  Z.shiftl c2 16 + Z.shiftr (c4 * dT c5 d2) 7.

Definition SENS1 (c1 c3 c5 d2 : Z) : Z :=
  Z.shiftl c1 15 + Z.shiftr (c3 * dT c5 d2) 8.

Definition T2 (dt : Z) : Z := Z.shiftr (dt * dt) 31.

Definition OFF2 (temp : Z) : Z :=
  Z.shiftr (5 * (temp - 2000) ^ 2) 1
  + (if temp <? -1500 then 7 * (temp + 1500) ^ 2 else 0).

Definition SENS2 (temp : Z) : Z :=
  Z.shiftr (5 * (temp - 2000) ^ 2) 2
  + (if temp <? -1500 then Z.shiftr (11 * (temp + 1500) ^ 2) 1 else 0).

Definition compensate (c1 c2 c3 c4 c5 c6 d1 d2 : Z) : ref_out :=
  let dt := dT c5 d2 in
  let temp := TEMP1 c5 c6 d2 in
  let off := OFF1 c2 c4 c5 d2 in
  let sens := SENS1 c1 c3 c5 d2 in
  let '(temp, off, sens) :=
    if temp <? 2000
    then (temp - T2 dt, off - OFF2 temp, sens - SENS2 temp)
    else (temp, off, sens) in
  {| TEMP := temp; P := Z.shiftr (d1 * sens) 21 - off |}.

End Reference.

Definition coeff (c : Z) : Prop := 0 <= c <= 65535.
Definition raw24 (d : Z) : Prop := 0 <= d <= 16777215.


(** ** Environment: the I2C bus, the stack, the timer

    The header [ms5611.h], [I2Cdev] and the AVR registers are not part of
    the file; what the driver needs of them is modelled here. *)

(** Modelled from the spec: the register commands of [ms5611.h], which is
    absent; they are kept symbolic.  [MS5611_CMD_READ_PROM_plus k] is the
    register [MS5611_CMD_READ_PROM + k]. *)
Inductive i2c_reg :=
| MS5611_CMD_RESET
| MS5611_CMD_READ_PROM_plus (k : Z)
| MS5611_CMD_ADC_READ
| MS5611_CMD_CONV_D1
| MS5611_CMD_CONV_D2.

(** Modelled from the spec: the two fixed delays of [ms5611.h]. *)
Inductive delay_const := MS5611_RESET_DELAY | MS5611_CONV_DELAY.

(** Modelled from the spec: the two values of the sampler step in
    [ms5611.h], an enumeration of two distinct [int] constants. *)
Definition MS5611_STEP_READ_TEMP : Z := 0.
Definition MS5611_STEP_READ_PRESSURE : Z := 1.

(** What the device answers to one read transaction. *)
Inductive bus_reply :=
| Transferred (data : list byte)
| TimedOut.

(** What the driver does to its environment, in order. *)
Inductive event :=
| WriteBytes (reg : i2c_reg)
| ReadBytes (reg : i2c_reg) (len : nat) (count : Z)
| Delay (d : delay_const).

Record hw := {
  i2c_replies : nat -> bus_reply;    (* answer to the n-th read *)
  stack_junk : nat -> nat -> byte;   (* content of the n-th uninitialised buffer *)
  i2c_reads : nat;                   (* reads performed so far *)
  trace : list event;
  TCCRxA : Z;
  TCCRxB : Z;
  TIMSKx : Z;
  TCNTx : Z;
  OCRxA : Z;
  irq_enabled : bool
}.

Definition hw_set_i2c_reads (v : nat) (h : hw) : hw :=
  {| i2c_replies := i2c_replies h; stack_junk := stack_junk h;
     i2c_reads := v; trace := trace h; TCCRxA := TCCRxA h;
     TCCRxB := TCCRxB h; TIMSKx := TIMSKx h; TCNTx := TCNTx h;
     OCRxA := OCRxA h; irq_enabled := irq_enabled h |}.

Definition hw_set_trace (v : list event) (h : hw) : hw :=
  {| i2c_replies := i2c_replies h; stack_junk := stack_junk h;
     i2c_reads := i2c_reads h; trace := v; TCCRxA := TCCRxA h;
     TCCRxB := TCCRxB h; TIMSKx := TIMSKx h; TCNTx := TCNTx h;
     OCRxA := OCRxA h; irq_enabled := irq_enabled h |}.

Definition hw_set_TCCRxA (v : Z) (h : hw) : hw :=
  {| i2c_replies := i2c_replies h; stack_junk := stack_junk h;
     i2c_reads := i2c_reads h; trace := trace h; TCCRxA := v;
     TCCRxB := TCCRxB h; TIMSKx := TIMSKx h; TCNTx := TCNTx h;
     OCRxA := OCRxA h; irq_enabled := irq_enabled h |}.

Definition hw_set_TCCRxB (v : Z) (h : hw) : hw :=
  {| i2c_replies := i2c_replies h; stack_junk := stack_junk h;
     i2c_reads := i2c_reads h; trace := trace h; TCCRxA := TCCRxA h;
     TCCRxB := v; TIMSKx := TIMSKx h; TCNTx := TCNTx h; OCRxA := OCRxA h;
     irq_enabled := irq_enabled h |}.

Definition hw_set_TIMSKx (v : Z) (h : hw) : hw :=
  {| i2c_replies := i2c_replies h; stack_junk := stack_junk h;
     i2c_reads := i2c_reads h; trace := trace h; TCCRxA := TCCRxA h;
     TCCRxB := TCCRxB h; TIMSKx := v; TCNTx := TCNTx h; OCRxA := OCRxA h;
     irq_enabled := irq_enabled h |}.

Definition hw_set_TCNTx (v : Z) (h : hw) : hw :=
  {| i2c_replies := i2c_replies h; stack_junk := stack_junk h;
     i2c_reads := i2c_reads h; trace := trace h; TCCRxA := TCCRxA h;
     TCCRxB := TCCRxB h; TIMSKx := TIMSKx h; TCNTx := v; OCRxA := OCRxA h;
     irq_enabled := irq_enabled h |}.

Definition hw_set_OCRxA (v : Z) (h : hw) : hw :=
  {| i2c_replies := i2c_replies h; stack_junk := stack_junk h;
     i2c_reads := i2c_reads h; trace := trace h; TCCRxA := TCCRxA h;
     TCCRxB := TCCRxB h; TIMSKx := TIMSKx h; TCNTx := TCNTx h; OCRxA := v;
     irq_enabled := irq_enabled h |}.

Definition hw_set_irq_enabled (v : bool) (h : hw) : hw :=
  {| i2c_replies := i2c_replies h; stack_junk := stack_junk h;
     i2c_reads := i2c_reads h; trace := trace h; TCCRxA := TCCRxA h;
     TCCRxB := TCCRxB h; TIMSKx := TIMSKx h; TCNTx := TCNTx h;
     OCRxA := OCRxA h; irq_enabled := v |}.

Definition emit (e : event) (h : hw) : hw := hw_set_trace (trace h ++ [e]) h.

(** A local [uint8_t data[len]] without initialiser. *)
Definition uninitialised (len : nat) (h : hw) : list byte :=
  map (stack_junk h (i2c_reads h)) (seq 0 len).

(** Modelled from the spec: [I2Cdev::readBytes], an external library.  It
    stores the bytes received, at most [len], at the start of the buffer and
    returns their number; after a timeout it returns -1 and has stored
    nothing. *)
Definition readBytes (reg : i2c_reg) (len : nat) (data : list byte) (h : hw)
  : Z * list byte * hw :=
  let '(count, data) :=
    match i2c_replies h (i2c_reads h) with
    | Transferred bytes =>
        let got := firstn len bytes in
        (Z.of_nat (length got), got ++ skipn (length got) data)
    | TimedOut => (-1, data)
    end in
  (count, data, emit (ReadBytes reg len count) (hw_set_i2c_reads (S (i2c_reads h)) h)).

(** The buffer of [len] bytes as read number [k] of the device leaves
    it: the bytes received at the start, the rest as the stack held it. *)
Definition buffer_after_read (len : nat) (h : hw) (k : nat) : list byte :=
  let junk := map (stack_junk h k) (seq 0 len) in
  match i2c_replies h k with
  | Transferred bytes =>
      let got := firstn len bytes in
      got ++ skipn (length got) junk
  | TimedOut => junk
  end.

(** Modelled from the spec: [I2Cdev::writeBytes] with an empty payload. *)
Definition writeBytes (reg : i2c_reg) (h : hw) : hw := emit (WriteBytes reg) h.

Definition byte_at (data : list byte) (i : nat) : Z :=
  Z.of_N (Byte.to_N (nth i data x00)).

(** ** Floating point and build configuration

    [double] is 32 bits wide on AVR and 64 bits wide elsewhere, and [pow]
    comes from the C library.  The driver is therefore written over an
    interface; the constants of the absent header that are floating point
    or depend on the board are part of it. *)
Class Target := {
  double : Type;
  dbl_of_Z : Z -> double;                    (* conversion of an integer *)
  dbl_lit : Q -> double;                     (* a decimal literal *)
  dbl_sub : double -> double -> double;
  dbl_mul : double -> double -> double;
  dbl_div : double -> double -> double;
  dbl_pow : double -> double -> double;
  MS5611_BASE_SEA_PRESSURE : double;
  MS5611_INTERRUPT_COMPARE : Z;
  TIMER2_COMPA_vect_defined : bool
}.

Section Driver.

Context {T : Target}.

(** The file-scope variables (lines 7-22) and the environment. *)
Record ms5611 := {
  d1i : Z;                           (* volatile uint32_t *)
  d2i : Z;                           (* volatile uint32_t *)
  measureStep : Z;                   (* volatile int *)
  newData : bool;
  locked : bool;
  interruptWait : bool;
  deviceReset : bool;
  c1 : Z; c2 : Z; c3 : Z; c4 : Z; c5 : Z; c6 : Z;   (* uint16_t *)
  compensatedTemperature : double;
  compensatedPressure : double;
  dev : hw
}.

Definition set_d1i (v : Z) (s : ms5611) : ms5611 :=
  {| d1i := v; d2i := d2i s; measureStep := measureStep s;
     newData := newData s; locked := locked s;
     interruptWait := interruptWait s; deviceReset := deviceReset s;
     c1 := c1 s; c2 := c2 s; c3 := c3 s; c4 := c4 s; c5 := c5 s; c6 := c6 s;
     compensatedTemperature := compensatedTemperature s;
     compensatedPressure := compensatedPressure s; dev := dev s |}.

Definition set_d2i (v : Z) (s : ms5611) : ms5611 :=
  {| d1i := d1i s; d2i := v; measureStep := measureStep s;
     newData := newData s; locked := locked s;
     interruptWait := interruptWait s; deviceReset := deviceReset s;
     c1 := c1 s; c2 := c2 s; c3 := c3 s; c4 := c4 s; c5 := c5 s; c6 := c6 s;
     compensatedTemperature := compensatedTemperature s;
     compensatedPressure := compensatedPressure s; dev := dev s |}.

Definition set_measureStep (v : Z) (s : ms5611) : ms5611 :=
  {| d1i := d1i s; d2i := d2i s; measureStep := v; newData := newData s;
     locked := locked s; interruptWait := interruptWait s;
     deviceReset := deviceReset s; c1 := c1 s; c2 := c2 s; c3 := c3 s;
     c4 := c4 s; c5 := c5 s; c6 := c6 s;
     compensatedTemperature := compensatedTemperature s;
     compensatedPressure := compensatedPressure s; dev := dev s |}.

Definition set_newData (v : bool) (s : ms5611) : ms5611 :=
  {| d1i := d1i s; d2i := d2i s; measureStep := measureStep s; newData := v;
     locked := locked s; interruptWait := interruptWait s;
     deviceReset := deviceReset s; c1 := c1 s; c2 := c2 s; c3 := c3 s;
     c4 := c4 s; c5 := c5 s; c6 := c6 s;
     compensatedTemperature := compensatedTemperature s;
     compensatedPressure := compensatedPressure s; dev := dev s |}.

Definition set_locked (v : bool) (s : ms5611) : ms5611 :=
  {| d1i := d1i s; d2i := d2i s; measureStep := measureStep s;
     newData := newData s; locked := v; interruptWait := interruptWait s;
     deviceReset := deviceReset s; c1 := c1 s; c2 := c2 s; c3 := c3 s;
     c4 := c4 s; c5 := c5 s; c6 := c6 s;
     compensatedTemperature := compensatedTemperature s;
     compensatedPressure := compensatedPressure s; dev := dev s |}.

Definition set_interruptWait (v : bool) (s : ms5611) : ms5611 :=
  {| d1i := d1i s; d2i := d2i s; measureStep := measureStep s;
     newData := newData s; locked := locked s; interruptWait := v;
     deviceReset := deviceReset s; c1 := c1 s; c2 := c2 s; c3 := c3 s;
     c4 := c4 s; c5 := c5 s; c6 := c6 s;
     compensatedTemperature := compensatedTemperature s;
     compensatedPressure := compensatedPressure s; dev := dev s |}.

Definition set_deviceReset (v : bool) (s : ms5611) : ms5611 :=
  {| d1i := d1i s; d2i := d2i s; measureStep := measureStep s;
     newData := newData s; locked := locked s;
     interruptWait := interruptWait s; deviceReset := v; c1 := c1 s;
     c2 := c2 s; c3 := c3 s; c4 := c4 s; c5 := c5 s; c6 := c6 s;
     compensatedTemperature := compensatedTemperature s;
     compensatedPressure := compensatedPressure s; dev := dev s |}.

Definition set_c1 (v : Z) (s : ms5611) : ms5611 :=
  {| d1i := d1i s; d2i := d2i s; measureStep := measureStep s;
     newData := newData s; locked := locked s;
     interruptWait := interruptWait s; deviceReset := deviceReset s; c1 := v;
     c2 := c2 s; c3 := c3 s; c4 := c4 s; c5 := c5 s; c6 := c6 s;
     compensatedTemperature := compensatedTemperature s;
     compensatedPressure := compensatedPressure s; dev := dev s |}.

Definition set_c2 (v : Z) (s : ms5611) : ms5611 :=
  {| d1i := d1i s; d2i := d2i s; measureStep := measureStep s;
     newData := newData s; locked := locked s;
     interruptWait := interruptWait s; deviceReset := deviceReset s;
     c1 := c1 s; c2 := v; c3 := c3 s; c4 := c4 s; c5 := c5 s; c6 := c6 s;
     compensatedTemperature := compensatedTemperature s;
     compensatedPressure := compensatedPressure s; dev := dev s |}.

Definition set_c3 (v : Z) (s : ms5611) : ms5611 :=
  {| d1i := d1i s; d2i := d2i s; measureStep := measureStep s;
     newData := newData s; locked := locked s;
     interruptWait := interruptWait s; deviceReset := deviceReset s;
     c1 := c1 s; c2 := c2 s; c3 := v; c4 := c4 s; c5 := c5 s; c6 := c6 s;
     compensatedTemperature := compensatedTemperature s;
     compensatedPressure := compensatedPressure s; dev := dev s |}.

Definition set_c4 (v : Z) (s : ms5611) : ms5611 :=
  {| d1i := d1i s; d2i := d2i s; measureStep := measureStep s;
     newData := newData s; locked := locked s;
     interruptWait := interruptWait s; deviceReset := deviceReset s;
     c1 := c1 s; c2 := c2 s; c3 := c3 s; c4 := v; c5 := c5 s; c6 := c6 s;
     compensatedTemperature := compensatedTemperature s;
     compensatedPressure := compensatedPressure s; dev := dev s |}.

Definition set_c5 (v : Z) (s : ms5611) : ms5611 :=
  {| d1i := d1i s; d2i := d2i s; measureStep := measureStep s;
     newData := newData s; locked := locked s;
     interruptWait := interruptWait s; deviceReset := deviceReset s;
     c1 := c1 s; c2 := c2 s; c3 := c3 s; c4 := c4 s; c5 := v; c6 := c6 s;
     compensatedTemperature := compensatedTemperature s;
     compensatedPressure := compensatedPressure s; dev := dev s |}.

Definition set_c6 (v : Z) (s : ms5611) : ms5611 :=
  {| d1i := d1i s; d2i := d2i s; measureStep := measureStep s;
     newData := newData s; locked := locked s;
     interruptWait := interruptWait s; deviceReset := deviceReset s;
     c1 := c1 s; c2 := c2 s; c3 := c3 s; c4 := c4 s; c5 := c5 s; c6 := v;
     compensatedTemperature := compensatedTemperature s;
     compensatedPressure := compensatedPressure s; dev := dev s |}.

Definition set_compensatedTemperature (v : double) (s : ms5611) : ms5611 :=
  {| d1i := d1i s; d2i := d2i s; measureStep := measureStep s;
     newData := newData s; locked := locked s;
     interruptWait := interruptWait s; deviceReset := deviceReset s;
     c1 := c1 s; c2 := c2 s; c3 := c3 s; c4 := c4 s; c5 := c5 s; c6 := c6 s;
     compensatedTemperature := v;
     compensatedPressure := compensatedPressure s; dev := dev s |}.

Definition set_compensatedPressure (v : double) (s : ms5611) : ms5611 :=
  {| d1i := d1i s; d2i := d2i s; measureStep := measureStep s;
     newData := newData s; locked := locked s;
     interruptWait := interruptWait s; deviceReset := deviceReset s;
     c1 := c1 s; c2 := c2 s; c3 := c3 s; c4 := c4 s; c5 := c5 s; c6 := c6 s;
     compensatedTemperature := compensatedTemperature s;
     compensatedPressure := v; dev := dev s |}.

Definition set_dev (v : hw) (s : ms5611) : ms5611 :=
  {| d1i := d1i s; d2i := d2i s; measureStep := measureStep s;
     newData := newData s; locked := locked s;
     interruptWait := interruptWait s; deviceReset := deviceReset s;
     c1 := c1 s; c2 := c2 s; c3 := c3 s; c4 := c4 s; c5 := c5 s; c6 := c6 s;
     compensatedTemperature := compensatedTemperature s;
     compensatedPressure := compensatedPressure s; dev := v |}.

Definition on_dev (f : hw -> hw) (s : ms5611) : ms5611 := set_dev (f (dev s)) s.

(** The values the variables have when the program starts. *)
Definition power_on (h : hw) : ms5611 :=
  {| d1i := 0; d2i := 0; measureStep := 0; newData := false;
     locked := false; interruptWait := false; deviceReset := false;
     c1 := 0; c2 := 0; c3 := 0; c4 := 0; c5 := 0; c6 := 0;
     compensatedTemperature := dbl_of_Z 0;
     compensatedPressure := dbl_of_Z 0;
     dev := h |}.

(** *** Measure functions (lines 29-105) *)

Definition ms5611_resetCommand (s : ms5611) : ms5611 :=
  on_dev (writeBytes MS5611_CMD_RESET) s.

Definition ms5611_getPROMValue (address : Z) (s : ms5611) : Z * ms5611 :=
  let data := uninitialised 2 (dev s) in
  let '(_, data, h) :=
    readBytes (MS5611_CMD_READ_PROM_plus (address * 2)) 2 data (dev s) in
  let v := to_uint16 (byte_at data 0) in
  let v := to_uint16 (Z.shiftl v 8) in
  let v := to_uint16 (v + byte_at data 1) in
  (v, set_dev h s).

(** [value] is a reference to [d1i] or to [d2i]; the function returns what
    it stores there. *)
Definition ms5611_getDigitalValue (s : ms5611) : Z * ms5611 :=
  let data := uninitialised 3 (dev s) in
  let '(_, data, h) := readBytes MS5611_CMD_ADC_READ 3 data (dev s) in
  let value := to_uint32 (byte_at data 0) in
  let value := to_uint32 (Z.shiftl value 8) in
  let value := to_uint32 (value + byte_at data 1) in
  let value := to_uint32 (Z.shiftl value 8) in
  let value := to_uint32 (value + byte_at data 2) in
  (value, set_dev h s).

Definition ms5611_convertD1 (s : ms5611) : ms5611 :=
  on_dev (writeBytes MS5611_CMD_CONV_D1) s.

Definition ms5611_convertD2 (s : ms5611) : ms5611 :=
  on_dev (writeBytes MS5611_CMD_CONV_D2) s.

Definition ms5611_readTempStep (s : ms5611) : ms5611 :=
  let '(value, s) := ms5611_getDigitalValue s in
  let s := set_d1i value s in
  ms5611_convertD2 s.

Definition ms5611_readPressureStep (s : ms5611) : ms5611 :=
  let '(value, s) := ms5611_getDigitalValue s in
  let s := set_d2i value s in
  let s := ms5611_convertD1 s in
  set_newData true s.

Definition ms5611_readStep (s : ms5611) : ms5611 :=
  if measureStep s =? MS5611_STEP_READ_TEMP then
    let s := ms5611_readTempStep s in
    set_measureStep MS5611_STEP_READ_PRESSURE s
  else
    let s := ms5611_readPressureStep s in
    set_measureStep MS5611_STEP_READ_TEMP s.

(** *** Interrupt and mutex functions (lines 107-177) *)

Definition ms5611_lock (s : ms5611) : ms5611 := set_locked true s.

Definition ms5611_release (s : ms5611) : ms5611 :=
  let s := set_locked false s in
  if interruptWait s then
    let s := ms5611_readStep s in
    let s := on_dev (hw_set_TCNTx 0) s in
    set_interruptWait false s
  else s.

Definition interrupts (s : ms5611) : ms5611 := on_dev (hw_set_irq_enabled true) s.
Definition noInterrupts (s : ms5611) : ms5611 := on_dev (hw_set_irq_enabled false) s.

(** The handler of the compare-match interrupt. *)
Definition ISR_TIMER_COMPA (s : ms5611) : ms5611 :=
  if locked s then set_interruptWait true s
  else
    let s := interrupts s in
    ms5611_readStep s.

Definition ms5611_setTimer (s : ms5611) : ms5611 :=
  let s := noInterrupts s in
  let s :=
    if TIMER2_COMPA_vect_defined then
      let s := on_dev (hw_set_TCCRxA 2) s in
      let s := on_dev (hw_set_TCCRxB 7) s in
      let s := on_dev (hw_set_TIMSKx 2) s in
      let s := on_dev (hw_set_TCNTx 0) s in
      on_dev (hw_set_OCRxA MS5611_INTERRUPT_COMPARE) s
    else
      let s := on_dev (hw_set_TCCRxA 0) s in
      let s := on_dev (hw_set_TCCRxB 13) s in
      let s := on_dev (hw_set_TIMSKx 2) s in
      let s := on_dev (hw_set_TCNTx 0) s in
      on_dev (hw_set_OCRxA MS5611_INTERRUPT_COMPARE) s in
  interrupts s.

(** *** Public functions (lines 180-325) *)

Definition delay (d : delay_const) (s : ms5611) : ms5611 := on_dev (emit (Delay d)) s.

Definition ms5611_init (s : ms5611) : ms5611 :=
  let s :=
    if negb (deviceReset s) then
      let s := set_deviceReset true s in
      let s := ms5611_resetCommand s in
      let s := delay MS5611_RESET_DELAY s in
      let '(v, s) := ms5611_getPROMValue 0 s in let s := set_c1 v s in
      let '(v, s) := ms5611_getPROMValue 1 s in let s := set_c2 v s in
      let '(v, s) := ms5611_getPROMValue 2 s in let s := set_c3 v s in
      let '(v, s) := ms5611_getPROMValue 3 s in let s := set_c4 v s in
      let '(v, s) := ms5611_getPROMValue 4 s in let s := set_c5 v s in
      let '(v, s) := ms5611_getPROMValue 5 s in let s := set_c6 v s in
      s
    else s in
  let s := set_measureStep MS5611_STEP_READ_TEMP s in
  let s := set_newData false s in
  let s := ms5611_convertD1 s in
  let s := delay MS5611_CONV_DELAY s in
  ms5611_setTimer s.

Definition ms5611_dataReady (s : ms5611) : bool := newData s.

(** Lines 304-306. *)
Definition save_result (r : compensated) (s : ms5611) : ms5611 :=
  let s := set_compensatedTemperature
             (dbl_div (dbl_of_Z (out_temp r)) (dbl_of_Z 100)) s in
  set_compensatedPressure
    (dbl_div (dbl_div (dbl_of_Z (out_p r)) (dbl_of_Z 32768)) (dbl_of_Z 100)) s.

Definition ms5611_updateData (s : ms5611) : ms5611 :=
  let s := ms5611_lock s in
  let d1 := d1i s in
  let d2 := d2i s in
  let s := set_newData false s in
  let s := ms5611_release s in
  save_result (compensate (c1 s) (c2 s) (c3 s) (c4 s) (c5 s) (c6 s) d1 d2) s.


Definition ms5611_getPressure (s : ms5611) : double := compensatedPressure s.

Definition ms5611_getAltitude (s : ms5611) : double :=
  let alti :=
    dbl_pow (dbl_div (compensatedPressure s) MS5611_BASE_SEA_PRESSURE)
            (dbl_lit 0.1902949572) in
  let alti :=
    dbl_mul (dbl_sub (dbl_of_Z 1) alti)
            (dbl_div (dbl_lit 288.15) (dbl_lit 0.0065)) in
  alti.

End Driver.

(** ** Execution of [ms5611_updateData] with the timer interrupt

    The handler can run between any two statements of the consumer.  The
    body of [ms5611_updateData], with [ms5611_release] inlined, is cut into
    its statements; [d1] and [d2] are its local variables.

    [d1i], [d2i] and [newData] are declared volatile (lines 7-12): the two
    copies and the clearing are executed in the order of the source.
    [locked] and [interruptWait] are not (lines 15-16): the compiler may
    execute the store [locked = true] later than it is written, or merge
    it with the store [locked = false] that follows it in the same
    function, which leaves no store at all. *)

Inductive instr :=
| LOCK            (* locked = true            (ms5611_lock, line 226) *)
| COPY_D1         (* d1 = d1i                 (line 227) *)
| COPY_D2         (* d2 = d2i                 (line 228) *)
| CLEAR_NEWDATA   (* newData = false          (line 229) *)
| UNLOCK          (* locked = false           (ms5611_release, line 118) *)
| CATCH_UP        (* if( interruptWait ) ...  (ms5611_release, lines 121-131) *)
| COMPUTE.        (* lines 232-306 *)

Inductive action :=
| Main (i : instr)   (* the consumer executes its next statement *)
| Irq.               (* the timer fires and its handler runs *)

Record locals := { loc_d1 : Z; loc_d2 : Z }.

Section Interleaving.

Context {T : Target}.

Definition config : Type := ms5611 * locals.

Definition catch_up (s : ms5611) : ms5611 :=
  if interruptWait s then
    let s := ms5611_readStep s in
    let s := on_dev (hw_set_TCNTx 0) s in
    set_interruptWait false s
  else s.

Definition exec (i : instr) (c : config) : config :=
  let '(s, l) := c in
  match i with
  | LOCK => (ms5611_lock s, l)
  | COPY_D1 => (s, {| loc_d1 := d1i s; loc_d2 := loc_d2 l |})
  | COPY_D2 => (s, {| loc_d1 := loc_d1 l; loc_d2 := d2i s |})
  | CLEAR_NEWDATA => (set_newData false s, l)
  | UNLOCK => (set_locked false s, l)
  | CATCH_UP => (catch_up s, l)
  | COMPUTE =>
      (save_result
         (compensate (c1 s) (c2 s) (c3 s) (c4 s) (c5 s) (c6 s) (loc_d1 l) (loc_d2 l))
         s, l)
  end.

Definition act (a : action) (c : config) : config :=
  match a with
  | Main i => exec i c
  | Irq => (ISR_TIMER_COMPA (fst c), snd c)
  end.

(** The statements in the order of the source. *)
Definition updateData_code : list instr :=
  [LOCK; COPY_D1; COPY_D2; CLEAR_NEWDATA; UNLOCK; CATCH_UP; COMPUTE].

(** The orders in which the statements can be executed: the accesses to
    the volatile variables and everything from [locked = false] on as
    written, the store [locked = true] at any place before
    [locked = false], or dropped. *)
Definition updateData_orders : list (list instr) :=
  [ [LOCK; COPY_D1; COPY_D2; CLEAR_NEWDATA; UNLOCK; CATCH_UP; COMPUTE];
    [COPY_D1; LOCK; COPY_D2; CLEAR_NEWDATA; UNLOCK; CATCH_UP; COMPUTE];
    [COPY_D1; COPY_D2; LOCK; CLEAR_NEWDATA; UNLOCK; CATCH_UP; COMPUTE];
    [COPY_D1; COPY_D2; CLEAR_NEWDATA; LOCK; UNLOCK; CATCH_UP; COMPUTE];
    [COPY_D1; COPY_D2; CLEAR_NEWDATA; UNLOCK; CATCH_UP; COMPUTE] ].

(** [irqs] gives, for each statement in turn, how many times the handler
    runs just before it. *)
Fixpoint interleave (code : list instr) (irqs : list nat) : list action :=
  match code with
  | [] => []
  | i :: code =>
      match irqs with
      | [] => Main i :: interleave code []
      | n :: irqs => repeat Irq n ++ Main i :: interleave code irqs
      end
  end.

Fixpoint run (acts : list action) (c : config) : config :=
  match acts with
  | [] => c
  | a :: acts => run acts (act a c)
  end.

(** Each action with the configurations before and after it. *)
Fixpoint history (acts : list action) (c : config)
  : list (action * config * config) :=
  match acts with
  | [] => []
  | a :: acts => (a, c, act a c) :: history acts (act a c)
  end.

End Interleaving.

(** The driver's functions that change its state, for statements about
    every sequence of calls.  A call runs to completion: in a sequence of
    calls the timer interrupt is a call of the handler between two others,
    never inside one. *)
Inductive op :=
| Op_resetCommand | Op_getPROMValue (address : Z) | Op_getDigitalValue
| Op_convertD1 | Op_convertD2 | Op_readTempStep | Op_readPressureStep
| Op_readStep | Op_lock | Op_release | Op_ISR | Op_setTimer | Op_init
| Op_dataReady | Op_updateData | Op_getTemperature | Op_getPressure
| Op_getAltitude.

Section Calls.

Context {T : Target}.

Definition call (o : op) (s : ms5611) : ms5611 :=
  match o with
  | Op_resetCommand => ms5611_resetCommand s
  | Op_getPROMValue address => snd (ms5611_getPROMValue address s)
  | Op_getDigitalValue => snd (ms5611_getDigitalValue s)
  | Op_convertD1 => ms5611_convertD1 s
  | Op_convertD2 => ms5611_convertD2 s
  | Op_readTempStep => ms5611_readTempStep s
  | Op_readPressureStep => ms5611_readPressureStep s
  | Op_readStep => ms5611_readStep s
  | Op_lock => ms5611_lock s
  | Op_release => ms5611_release s
  | Op_ISR => ISR_TIMER_COMPA s
  | Op_setTimer => ms5611_setTimer s
  | Op_init => ms5611_init s
  | Op_updateData => ms5611_updateData s
  | Op_dataReady | Op_getTemperature | Op_getPressure | Op_getAltitude => s
  end.

Definition calls (ops : list op) (s : ms5611) : ms5611 :=
  fold_left (fun s o => call o s) ops s.

End Calls.

(** The value [ms5611_getDigitalValue] stores, from the buffer as the bus
    transaction leaves it. *)
Definition assembled24 (data : list byte) : Z :=
  byte_at data 0 * 65536 + byte_at data 1 * 256 + byte_at data 2.

Definition assembled16 (data : list byte) : Z :=
  byte_at data 0 * 256 + byte_at data 1.

(** The six coefficients. *)
Definition coefficients {T : Target} (s : ms5611) : list Z :=
  [c1 s; c2 s; c3 s; c4 s; c5 s; c6 s].

(** The transactions that belong to the loading of the calibration: the
    reset command and the reads of the PROM. *)
Definition is_calibration_io (e : event) : bool :=
  match e with
  | WriteBytes MS5611_CMD_RESET => true
  | ReadBytes (MS5611_CMD_READ_PROM_plus _) _ _ => true
  | _ => false
  end.

(** The reads of a converted value, one in each sampler step. *)
Definition is_adc_read (e : event) : bool :=
  match e with
  | ReadBytes MS5611_CMD_ADC_READ _ _ => true
  | _ => false
  end.

Definition steps_done {T : Target} (s : ms5611) : nat :=
  length (filter is_adc_read (trace (dev s))).

(** What of a state concerns the calibration. *)
Definition calibration_view {T : Target} (s : ms5611) : bool * list Z * list event :=
  (deviceReset s, coefficients s, filter is_calibration_io (trace (dev s))).

Definition touches_prom (o : op) : bool :=
  match o with
  | Op_resetCommand | Op_getPROMValue _ => true
  | _ => false
  end.

(** ** Instances used to evaluate the driver *)

(** The power function on real numbers as [pow] of the C library has it
    for a positive exponent: the real power of a positive base, and 0 for
    the base 0.  For a negative base, where [pow] returns no number, it is
    0 as well; the statements over real numbers are about pressures that
    are not negative. *)
Definition real_pow (x y : R) : R :=
  if Rlt_dec 0 x then Rpower x y else 0%R.

(** Real numbers for [double]: the arithmetic without rounding. *)
Definition real_target (base : R) (compare : Z) (timer2 : bool) : Target :=
  {| double := R;
     dbl_of_Z := IZR;
     dbl_lit := Q2R;
     dbl_sub := Rminus;
     dbl_mul := Rmult;
     dbl_div := Rdiv;
     dbl_pow := real_pow;
     MS5611_BASE_SEA_PRESSURE := base;
     MS5611_INTERRUPT_COMPARE := compare;
     TIMER2_COMPA_vect_defined := timer2 |}.

(** Expressions for [double]: a result is the tree of the operations that
    produce it, so that the driver can be evaluated without choosing a
    floating-point format. *)
Inductive dexpr :=
| D_of_Z (z : Z)
| D_lit (q : Q)
| D_sub (a b : dexpr)
| D_mul (a b : dexpr)
| D_div (a b : dexpr)
| D_pow (a b : dexpr).

Definition symbolic_target (base : Q) (compare : Z) (timer2 : bool) : Target :=
  {| double := dexpr;
     dbl_of_Z := D_of_Z;
     dbl_lit := D_lit;
     dbl_sub := D_sub;
     dbl_mul := D_mul;
     dbl_div := D_div;
     dbl_pow := D_pow;
     MS5611_BASE_SEA_PRESSURE := D_lit base;
     MS5611_INTERRUPT_COMPARE := compare;
     TIMER2_COMPA_vect_defined := timer2 |}.

(** A board with the second timer and the standard pressure at sea level,
    in hPa, as reference. *)
Definition bench_target : Target := symbolic_target 1013.25%Q 124 true.
Definition real_bench_target : Target := real_target 1013.25%R 124 true.

(** A device that answers every read with the bytes 8A A2 1A, and one whose
    reads all time out over a stack that holds FF everywhere. *)
Definition answering_hw : hw :=
  {| i2c_replies := fun _ => Transferred [x8a; xa2; x1a];
     stack_junk := fun _ _ => x00;
     i2c_reads := 0; trace := [];
     TCCRxA := 0; TCCRxB := 0; TIMSKx := 0; TCNTx := 57; OCRxA := 0;
     irq_enabled := true |}.

Definition silent_hw : hw :=
  {| i2c_replies := fun _ => TimedOut;
     stack_junk := fun _ _ => xff;
     i2c_reads := 0; trace := [];
     TCCRxA := 0; TCCRxB := 0; TIMSKx := 0; TCNTx := 57; OCRxA := 0;
     irq_enabled := true |}.

(** ** The altitude formula of the design document

    This definition follows the design document (section 4.4), over the
    real numbers, with the exponent left as a parameter:
    [altitude(pressure, seaLevelReferencePressure)] is
    [barometric_altitude (1 / 5.25529) pressure seaLevelReferencePressure]. *)
Definition barometric_altitude (exponent pressure seaLevelReferencePressure : R) : R :=
  (288.15 / 0.0065) * (1 - real_pow (pressure / seaLevelReferencePressure) exponent).

(** ** Definitions for the properties of the driver as a whole *)

Definition byte_val (b : byte) : Z := Z.of_N (Byte.to_N b).

(** The compensation in unbounded integers, started from a given value of
    [temp] in place of the first-order temperature. *)
Definition unbounded_from_temp (temp c1 c2 c3 c4 c5 d1 d2 : Z) : compensated :=
  let dt := Reference.dT c5 d2 in
  let off := Reference.OFF1 c2 c4 c5 d2 in
  let sens := Reference.SENS1 c1 c3 c5 d2 in
  let '(temp, off, sens) :=
    if temp <? 2000
    then (temp - Reference.T2 dt, off - Reference.OFF2 temp,
          sens - Reference.SENS2 temp)
    else (temp, off, sens) in
  {| out_temp := temp; out_p := Z.shiftr (d1 * sens) 21 - off |}.

(** The conversion the device was last told to start, from the trace. *)
Definition conversion_of (e : event) : option i2c_reg :=
  match e with
  | WriteBytes MS5611_CMD_CONV_D1 => Some MS5611_CMD_CONV_D1
  | WriteBytes MS5611_CMD_CONV_D2 => Some MS5611_CMD_CONV_D2
  | _ => None
  end.

Fixpoint last_conversion (t : list event) : option i2c_reg :=
  match t with
  | [] => None
  | e :: t =>
      match last_conversion t with
      | Some r => Some r
      | None => conversion_of e
      end
  end.

(** The functions that advance the sampler, if at all, through
    [ms5611_readStep]: all but [ms5611_init], which restarts it, and the
    helpers that read or start a conversion on their own. *)
Definition runs_whole_steps (o : op) : bool :=
  match o with
  | Op_init | Op_getDigitalValue | Op_convertD1 | Op_convertD2
  | Op_readTempStep | Op_readPressureStep => false
  | _ => true
  end.

Section Progress.

Context {T : Target}.

(** How a call can change what the sampler shows: not at all, the flag
    apart, which it may clear; or by one step. *)
Definition idle_between (s s' : ms5611) : Prop :=
  measureStep s' = measureStep s
  /\ steps_done s' = steps_done s
  /\ last_conversion (trace (dev s')) = last_conversion (trace (dev s))
  /\ (newData s' = true -> newData s = true).

Definition stepped_between (s s' : ms5611) : Prop :=
  measureStep s'
  = (if measureStep s =? MS5611_STEP_READ_TEMP
     then MS5611_STEP_READ_PRESSURE else MS5611_STEP_READ_TEMP)
  /\ steps_done s' = S (steps_done s)
  /\ last_conversion (trace (dev s'))
     = Some (if measureStep s =? MS5611_STEP_READ_TEMP
             then MS5611_CMD_CONV_D2 else MS5611_CMD_CONV_D1)
  /\ (newData s' = true ->
      newData s = true \/ (measureStep s =? MS5611_STEP_READ_TEMP) = false).

(** The variables hold values of their C types' intended ranges. *)
Definition in_range (s : ms5611) : Prop :=
  Forall coeff (coefficients s) /\ raw24 (d1i s) /\ raw24 (d2i s).

End Progress.

(** * Properties *)

(** ** Fixed-width conversions *)

Lemma to_int32_small (x : Z) :
  -2147483648 <= x < 2147483648 -> to_int32 x = x.
Proof.
  intros Hx. unfold to_int32, to_sint.
  change (2 ^ (32 - 1)) with 2147483648. change (2 ^ 32) with 4294967296.
  rewrite Z.mod_small; lia.
Qed.

Lemma to_int64_small (x : Z) :
  -9223372036854775808 <= x < 9223372036854775808 -> to_int64 x = x.
Proof.
  intros Hx. unfold to_int64, to_sint.
  change (2 ^ (64 - 1)) with 9223372036854775808.
  change (2 ^ 64) with 18446744073709551616.
  rewrite Z.mod_small; lia.
Qed.

Lemma to_int32_range (x : Z) : -2147483648 <= to_int32 x < 2147483648.
Proof.
  unfold to_int32, to_sint.
  change (2 ^ (32 - 1)) with 2147483648. change (2 ^ 32) with 4294967296.
  pose proof (Z.mod_pos_bound (x + 2147483648) 4294967296). lia.
Qed.

Lemma to_int32_fixed_iff (x : Z) : to_int32 x = x <-> fits_int32 x.
Proof.
  unfold fits_int32, fits_sint. change (2 ^ (32 - 1)) with 2147483648.
  split.
  - intros E. rewrite <- E. apply to_int32_range.
  - apply to_int32_small.
Qed.

Lemma to_int32_of_uint32 (x : Z) : to_int32 (to_uint32 x) = to_int32 x.
Proof.
  unfold to_int32, to_uint32, to_sint, to_uint.
  change (2 ^ (32 - 1)) with 2147483648. change (2 ^ 32) with 4294967296.
  now rewrite Z.add_mod_idemp_l.
Qed.

Lemma shiftr_23_int32 (x : Z) :
  -2147483648 <= x < 2147483648 -> -256 <= Z.shiftr x 23 <= 255.
Proof.
  intros Hx. rewrite Z.shiftr_div_pow2 by lia. change (2 ^ 23) with 8388608.
  Z.div_mod_to_equations. lia.
Qed.

Ltac shifts :=
  repeat (rewrite Z.shiftr_div_pow2 by lia);
  repeat (rewrite Z.shiftl_mul_pow2 by lia);
  change (2 ^ 1) with 2 in *; change (2 ^ 2) with 4 in *;
  change (2 ^ 7) with 128 in *; change (2 ^ 8) with 256 in *;
  change (2 ^ 15) with 32768 in *; change (2 ^ 16) with 65536 in *;
  change (2 ^ 21) with 2097152 in *; change (2 ^ 23) with 8388608 in *;
  change (2 ^ 31) with 2147483648 in *.

Ltac divlia := Z.div_mod_to_equations; lia.

(** ** The compensation arithmetic *)

Section Compensation.

Variables c1 c2 c3 c4 c5 c6 d1 d2 : Z.
Hypothesis Hc1 : coeff c1.
Hypothesis Hc2 : coeff c2.
Hypothesis Hc3 : coeff c3.
Hypothesis Hc4 : coeff c4.
Hypothesis Hc5 : coeff c5.
Hypothesis Hc6 : coeff c6.
Hypothesis Hd1 : raw24 d1.
Hypothesis Hd2 : raw24 d2.

Let f1 := compute_first_order c1 c2 c3 c4 c5 c6 d2.

Lemma dT_range : -16776960 <= Reference.dT c5 d2 <= 16777215.
Proof.
  unfold Reference.dT, coeff, raw24 in *. shifts. lia.
Qed.

(** [dt] is exact: the subtraction in [uint32_t] followed by the conversion
    to [int32_t] gives the signed difference. *)
Lemma first_order_dt : fo_dt f1 = Reference.dT c5 d2.
Proof.
  pose proof dT_range as R.
  unfold f1, compute_first_order, Reference.dT in *; cbn [fo_dt].
  unfold coeff in *.
  rewrite to_int32_of_uint32. rewrite (to_int32_small c5) by lia.
  rewrite (to_int32_small (Z.shiftl c5 8)) by (shifts; lia).
  apply to_int32_small. lia.
Qed.

Lemma first_order_temp :
  fo_temp f1 = 2000 + Z.shiftr (to_int32 (c6 * Reference.dT c5 d2)) 23.
Proof.
  pose proof first_order_dt as E.
  unfold f1, compute_first_order in *; cbn [fo_dt fo_temp] in *.
  rewrite E. unfold coeff in *. rewrite (to_int32_small c6) by lia.
  apply to_int32_small.
  pose proof (shiftr_23_int32 _ (to_int32_range (c6 * Reference.dT c5 d2))).
  lia.
Qed.

(** Whatever the inputs, the temperature the code computes before the
    second-order block lies within 2.56 degrees of 20 degrees Celsius. *)
Lemma first_order_temp_range : 1744 <= fo_temp f1 <= 2255.
Proof.
  rewrite first_order_temp.
  pose proof (shiftr_23_int32 _ (to_int32_range (c6 * Reference.dT c5 d2))).
  lia.
Qed.

(** The block guarded by [temp < -1500] is never entered. *)
Lemma very_low_branch_unreachable : (fo_temp f1 <? -1500) = false.
Proof.
  pose proof first_order_temp_range. apply Z.ltb_ge. lia.
Qed.

(** The first-order temperature is the reference one exactly when the
    product [c6 * dT] fits [int32_t]. *)
Lemma first_order_temp_exact_iff :
  fo_temp f1 = Reference.TEMP1 c5 c6 d2 <-> fits_int32 (c6 * Reference.dT c5 d2).
Proof.
  rewrite first_order_temp. unfold Reference.TEMP1.
  split.
  - intros E.
    pose proof (shiftr_23_int32 _ (to_int32_range (c6 * Reference.dT c5 d2))) as R.
    assert (E' : Z.shiftr (c6 * Reference.dT c5 d2) 23
                 = Z.shiftr (to_int32 (c6 * Reference.dT c5 d2)) 23) by lia.
    rewrite <- E' in R. revert R. shifts.
    unfold fits_int32, fits_sint. change (2 ^ (32 - 1)) with 2147483648.
    intros R. divlia.
  - intros F. apply to_int32_fixed_iff in F. now rewrite F.
Qed.

Lemma first_order_off : fo_off f1 = Reference.OFF1 c2 c4 c5 d2.
Proof.
  pose proof first_order_dt as E. pose proof dT_range as R.
  unfold f1, compute_first_order, Reference.OFF1 in *; cbn [fo_dt fo_off] in *.
  rewrite E. unfold coeff in *.
  rewrite (to_int64_small c2) by lia. rewrite (to_int64_small c4) by lia.
  rewrite (to_int64_small (Z.shiftl c2 16)) by (shifts; lia).
  assert (B : -1099490000000 <= c4 * Reference.dT c5 d2 <= 1099500000000) by nia.
  rewrite (to_int64_small (c4 * _)) by lia.
  apply to_int64_small. shifts. divlia.
Qed.

Lemma first_order_sens : fo_sens f1 = Reference.SENS1 c1 c3 c5 d2.
Proof.
  pose proof first_order_dt as E. pose proof dT_range as R.
  unfold f1, compute_first_order, Reference.SENS1 in *; cbn [fo_dt fo_sens] in *.
  rewrite E. unfold coeff in *.
  rewrite (to_int64_small c1) by lia. rewrite (to_int64_small c3) by lia.
  rewrite (to_int64_small (Z.shiftl c1 15)) by (shifts; lia).
  assert (B : -1099490000000 <= c3 * Reference.dT c5 d2 <= 1099500000000) by nia.
  rewrite (to_int64_small (c3 * _)) by lia.
  apply to_int64_small. shifts. divlia.
Qed.

Lemma OFF1_range : -8589900000 <= Reference.OFF1 c2 c4 c5 d2 <= 12884800000.
Proof.
  pose proof dT_range as R. unfold Reference.OFF1, coeff in *.
  assert (B : -1099490000000 <= c4 * Reference.dT c5 d2 <= 1099500000000) by nia.
  shifts. divlia.
Qed.

Lemma SENS1_range : -4294950000 <= Reference.SENS1 c1 c3 c5 d2 <= 6442400000.
Proof.
  pose proof dT_range as R. unfold Reference.SENS1, coeff in *.
  assert (B : -1099490000000 <= c3 * Reference.dT c5 d2 <= 1099500000000) by nia.
  shifts. divlia.
Qed.

End Compensation.

(** The second-order block, taken by itself, computes the reference
    corrections from the [temp] it is given, the part for very low
    temperatures included. *)
Lemma second_order_exact (f : first_order) :
  -16776960 <= fo_dt f <= 16777215 ->
  -140000 <= fo_temp f <= 140000 ->
  -8589900000 <= fo_off f <= 12884800000 ->
  -4294950000 <= fo_sens f <= 6442400000 ->
  second_order f =
    if fo_temp f <? 2000 then
      {| fo_dt := fo_dt f;
         fo_temp := fo_temp f - Reference.T2 (fo_dt f);
         fo_off := fo_off f - Reference.OFF2 (fo_temp f);
         fo_sens := fo_sens f - Reference.SENS2 (fo_temp f) |}
    else f.
Proof.
  destruct f as [dt temp off sens]; cbn [fo_dt fo_temp fo_off fo_sens].
  intros Hdt Htemp Hoff Hsens.
  unfold second_order, Reference.T2, Reference.OFF2, Reference.SENS2;
    cbn [fo_dt fo_temp fo_off fo_sens].
  destruct (temp <? 2000) eqn:Elow; [|reflexivity].
  apply Z.ltb_lt in Elow.
  assert (Bdt : 0 <= dt * dt <= 281474976710656) by nia.
  assert (Bsq : 0 <= (temp - 2000) * (temp - 2000) <= 20164000000) by nia.
  replace ((temp - 2000) ^ 2) with ((temp - 2000) * (temp - 2000)) by ring.
  replace ((temp + 1500) ^ 2) with ((temp + 1500) * (temp + 1500)) by ring.
  rewrite (to_int64_small dt) by lia.
  rewrite (to_int64_small (dt * dt)) by lia.
  rewrite (to_int32_small (temp - 2000)) by lia.
  rewrite (to_int64_small (temp - 2000)) by lia.
  rewrite (to_int64_small ((temp - 2000) * (temp - 2000))) by lia.
  rewrite (to_int64_small ((temp - 2000) * (temp - 2000) * 5)) by lia.
  replace ((temp - 2000) * (temp - 2000) * 5)
    with (5 * ((temp - 2000) * (temp - 2000))) by ring.
  assert (Bt2 : 0 <= Z.shiftr (dt * dt) 31 <= 131072) by (shifts; divlia).
  assert (Bo2 : 0 <= Z.shiftr (5 * ((temp - 2000) * (temp - 2000))) 1
                <= 50410000000) by (shifts; divlia).
  assert (Bs2 : 0 <= Z.shiftr (5 * ((temp - 2000) * (temp - 2000))) 2
                <= 25205000000) by (shifts; divlia).
  rewrite (to_int64_small (temp - _)) by lia.
  rewrite (to_int32_small (temp - _)) by lia.
  destruct (temp <? -1500) eqn:Every.
  - apply Z.ltb_lt in Every.
    assert (Bex : 0 <= (temp + 1500) * (temp + 1500) <= 19182250000) by nia.
    rewrite (to_int32_small (temp + 1500)) by lia.
    rewrite (to_int64_small (temp + 1500)) by lia.
    rewrite (to_int64_small ((temp + 1500) * (temp + 1500))) by lia.
    rewrite (to_int64_small (7 * _)) by lia.
    rewrite (to_int64_small ((temp + 1500) * (temp + 1500) * 11)) by lia.
    replace ((temp + 1500) * (temp + 1500) * 11)
      with (11 * ((temp + 1500) * (temp + 1500))) by ring.
    assert (Be2 : 0 <= Z.shiftr (11 * ((temp + 1500) * (temp + 1500))) 1
                  <= 105502375000) by (shifts; divlia).
    rewrite (to_int64_small (Z.shiftr _ 1 + 7 * _)) by lia.
    rewrite (to_int64_small (Z.shiftr _ 2 + Z.shiftr _ 1)) by lia.
    rewrite (to_int64_small (off - _)) by lia.
    rewrite (to_int64_small (sens - _)) by lia.
    reflexivity.
  - rewrite (to_int64_small (off - _)) by lia.
    rewrite (to_int64_small (sens - _)) by lia.
    now rewrite !Z.add_0_r.
Qed.

(** The last step is exact for every [sens] and [off] the block above can
    leave. *)
Lemma compute_pressure_exact (d1 : Z) (f : first_order) :
  raw24 d1 ->
  -200000000000 <= fo_off f <= 200000000000 ->
  -200000000000 <= fo_sens f <= 200000000000 ->
  compute_pressure d1 f =
    {| out_temp := fo_temp f;
       out_p := Z.shiftr (d1 * fo_sens f) 21 - fo_off f |}.
Proof.
  unfold raw24, compute_pressure. intros Hd1 Hoff Hsens.
  assert (B : -3355443000000000000 <= d1 * fo_sens f <= 3355443000000000000) by nia.
  rewrite (to_int64_small (d1 * _)) by lia.
  rewrite to_int64_small; [reflexivity|]. shifts. divlia.
Qed.

Lemma square_bound (u b : Z) : - b <= u <= b -> 0 <= u * u <= b * b.
Proof.
  intros H. split; [nia|].
  assert (0 <= (b - u) * (b + u)) by (apply Z.mul_nonneg_nonneg; lia). lia.
Qed.

Lemma OFF2_range (temp : Z) :
  -140000 <= temp <= 140000 -> 0 <= Reference.OFF2 temp <= 190565750000.
Proof.
  intros H. unfold Reference.OFF2.
  replace ((temp - 2000) ^ 2) with ((temp - 2000) * (temp - 2000)) by ring.
  replace ((temp + 1500) ^ 2) with ((temp + 1500) * (temp + 1500)) by ring.
  pose proof (square_bound (temp - 2000) 142000 ltac:(lia)).
  pose proof (square_bound (temp + 1500) 141500 ltac:(lia)).
  destruct (temp <? -1500); shifts; divlia.
Qed.

Lemma SENS2_range (temp : Z) :
  -140000 <= temp <= 140000 -> 0 <= Reference.SENS2 temp <= 135327375000.
Proof.
  intros H. unfold Reference.SENS2.
  replace ((temp - 2000) ^ 2) with ((temp - 2000) * (temp - 2000)) by ring.
  replace ((temp + 1500) ^ 2) with ((temp + 1500) * (temp + 1500)) by ring.
  pose proof (square_bound (temp - 2000) 142000 ltac:(lia)).
  pose proof (square_bound (temp + 1500) 141500 ltac:(lia)).
  destruct (temp <? -1500); shifts; divlia.
Qed.

(** Where the product [c6 * dT] fits [int32_t], that is for temperatures
    from 17.44 to 22.55 degrees Celsius, the code and the reference
    algorithm agree on both results. *)
Lemma compensate_exact_when_product_fits (c1 c2 c3 c4 c5 c6 d1 d2 : Z) :
  coeff c1 -> coeff c2 -> coeff c3 -> coeff c4 -> coeff c5 -> coeff c6 ->
  raw24 d1 -> raw24 d2 ->
  fits_int32 (c6 * Reference.dT c5 d2) ->
  out_temp (compensate c1 c2 c3 c4 c5 c6 d1 d2)
    = Reference.TEMP (Reference.compensate c1 c2 c3 c4 c5 c6 d1 d2)
  /\ out_p (compensate c1 c2 c3 c4 c5 c6 d1 d2)
    = Reference.P (Reference.compensate c1 c2 c3 c4 c5 c6 d1 d2).
Proof.
  intros Hc1 Hc2 Hc3 Hc4 Hc5 Hc6 Hd1 Hd2 Hfit.
  pose proof (first_order_dt c1 c2 c3 c4 c5 c6 d2 Hc5 Hd2) as Edt.
  pose proof (proj2 (first_order_temp_exact_iff c1 c2 c3 c4 c5 c6 d2 Hc5 Hc6 Hd2) Hfit)
    as Etemp.
  pose proof (first_order_off c1 c2 c3 c4 c5 c6 d2 Hc2 Hc4 Hc5 Hd2) as Eoff.
  pose proof (first_order_sens c1 c2 c3 c4 c5 c6 d2 Hc1 Hc3 Hc5 Hd2) as Esens.
  pose proof (first_order_temp_range c1 c2 c3 c4 c5 c6 d2 Hc5 Hc6 Hd2) as Rtemp.
  pose proof (dT_range c5 d2 Hc5 Hd2) as Rdt.
  pose proof (OFF1_range c2 c4 c5 d2 Hc2 Hc4 Hc5 Hd2) as Roff.
  pose proof (SENS1_range c1 c3 c5 d2 Hc1 Hc3 Hc5 Hd2) as Rsens.
  unfold compensate, Reference.compensate.
  set (f := compute_first_order c1 c2 c3 c4 c5 c6 d2) in *.
  rewrite (second_order_exact f) by lia.
  rewrite <- Edt, <- Etemp, <- Eoff, <- Esens.
  pose proof (OFF2_range (fo_temp f) ltac:(lia)) as Ro2.
  pose proof (SENS2_range (fo_temp f) ltac:(lia)) as Rs2.
  destruct (fo_temp f <? 2000);
    (rewrite compute_pressure_exact;
     [ split; reflexivity | assumption | cbn [fo_off]; lia | cbn [fo_sens]; lia ]).
Qed.

(** *** The defect: [c6s *= dt] is an [int32_t] product *)

(** C1 (fails on the code): at the manufacturer's example coefficients and
    a raw temperature sample of 9000000 (34.62 degrees Celsius), the
    product [c6 * dt] is 12265211392, which does not fit the [int32_t]
    variable [c6s] it is computed in; the 32-bit result is -619690496, so
    that the temperature before the second-order block is 1926 and not the
    3462 of the computation in unbounded integers. *)
Theorem c6s_product_exceeds_int32 :
  coeff 28312 /\ coeff 33464 /\ raw24 9000000
  /\ Reference.dT 33464 9000000 = 433216
  /\ 28312 * Reference.dT 33464 9000000 = 12265211392
  /\ ~ fits_int32 (28312 * Reference.dT 33464 9000000)
  /\ to_int32 (28312 * Reference.dT 33464 9000000) = -619690496
  /\ fo_temp (compute_first_order 40127 36924 23317 23282 33464 28312 9000000) = 1926
  /\ Reference.TEMP1 33464 28312 9000000 = 3462.
Proof.
  unfold coeff, raw24.
  assert (N : ~ fits_int32 (28312 * Reference.dT 33464 9000000)).
  { unfold fits_int32, fits_sint. intros [_ H]. vm_compute in H. discriminate H. }
  repeat split; try lia; try exact N; vm_compute; congruence.
Qed.

(** C2 (fails on the code): on the same input the two stored integers,
    [temp] and [p], are 1839 and 3368724311, where the reference algorithm
    gives 3462 and 3368740276. *)
Theorem updateData_differs_from_reference :
  compensate 40127 36924 23317 23282 33464 28312 9085466 9000000
    = {| out_temp := 1839; out_p := 3368724311 |}
  /\ Reference.compensate 40127 36924 23317 23282 33464 28312 9085466 9000000
    = {| Reference.TEMP := 3462; Reference.P := 3368740276 |}.
Proof.
  split; vm_compute; reflexivity.
Qed.

(** C5 (fails on the code): for a raw temperature sample of 7381617 the
    temperature is -20.01 degrees Celsius ([TEMP] = -2001), below both
    thresholds, yet the code's [temp] is 2095 and the second-order block
    leaves [temp], [off] and [sens] as they are: neither the corrections
    for [TEMP < 2000] nor the extra terms for [TEMP < -1500] are applied. *)
Theorem second_order_skipped_when_cold :
  Reference.TEMP1 33464 28312 7381617 = -2001
  /\ fo_temp (compute_first_order 40127 36924 23317 23282 33464 28312 7381617) = 2095
  /\ second_order (compute_first_order 40127 36924 23317 23282 33464 28312 7381617)
     = compute_first_order 40127 36924 23317 23282 33464 28312 7381617
  /\ Reference.T2 (Reference.dT 33464 7381617) = 654
  /\ Reference.OFF2 (-2001) = 41777009
  /\ Reference.SENS2 (-2001) = 21390506
  /\ compensate 40127 36924 23317 23282 33464 28312 9085466 7381617
     = {| out_temp := 2095; out_p := 3024505443 |}
  /\ Reference.compensate 40127 36924 23317 23282 33464 28312 9085466 7381617
     = {| Reference.TEMP := -2655; Reference.P := 2973612624 |}.
Proof.
  repeat split; vm_compute; reflexivity.
Qed.

(** ** The two-phase sampler *)

Section Sampler.

Context {T : Target}.

Implicit Type s : ms5611.

Lemma byte_at_range (data : list byte) (i : nat) : 0 <= byte_at data i <= 255.
Proof.
  unfold byte_at. pose proof (Byte.to_N_bounded (nth i data x00)). lia.
Qed.

Lemma getDigitalValue_value s :
  fst (ms5611_getDigitalValue s)
  = assembled24 (snd (fst (readBytes MS5611_CMD_ADC_READ 3
                                     (uninitialised 3 (dev s)) (dev s)))).
Proof.
  unfold ms5611_getDigitalValue.
  destruct (readBytes _ _ _ _) as [[count data] h]. cbn [fst snd].
  unfold assembled24, to_uint32, to_uint.
  pose proof (byte_at_range data 0). pose proof (byte_at_range data 1).
  pose proof (byte_at_range data 2).
  change (2 ^ 32) with 4294967296. shifts.
  rewrite (Z.mod_small (byte_at data 0)) by lia.
  rewrite (Z.mod_small (byte_at data 0 * 256)) by lia.
  rewrite (Z.mod_small (byte_at data 0 * 256 + _)) by lia.
  rewrite (Z.mod_small ((byte_at data 0 * 256 + _) * 256)) by lia.
  rewrite Z.mod_small by lia. ring.
Qed.

Lemma getPROMValue_value (address : Z) s :
  fst (ms5611_getPROMValue address s)
  = assembled16 (snd (fst (readBytes (MS5611_CMD_READ_PROM_plus (address * 2)) 2
                                     (uninitialised 2 (dev s)) (dev s)))).
Proof.
  unfold ms5611_getPROMValue.
  destruct (readBytes _ _ _ _) as [[count data] h]. cbn [fst snd].
  unfold assembled16, to_uint16, to_uint.
  pose proof (byte_at_range data 0). pose proof (byte_at_range data 1).
  change (2 ^ 16) with 65536. shifts.
  rewrite (Z.mod_small (byte_at data 0)) by lia.
  rewrite (Z.mod_small (byte_at data 0 * 256)) by lia.
  rewrite Z.mod_small by lia. ring.
Qed.

(** A raw value is always a 24-bit number and a coefficient a 16-bit one. *)
Lemma getDigitalValue_raw24 s : raw24 (fst (ms5611_getDigitalValue s)).
Proof.
  rewrite getDigitalValue_value. unfold raw24, assembled24.
  set (data := snd _).
  pose proof (byte_at_range data 0). pose proof (byte_at_range data 1).
  pose proof (byte_at_range data 2). lia.
Qed.

Lemma getPROMValue_coeff (address : Z) s : coeff (fst (ms5611_getPROMValue address s)).
Proof.
  rewrite getPROMValue_value. unfold coeff, assembled16.
  set (data := snd _).
  pose proof (byte_at_range data 0). pose proof (byte_at_range data 1). lia.
Qed.

(** What one read transaction does to the environment. *)
Lemma readBytes_dev (reg : i2c_reg) (len : nat) (data : list byte) (h : hw) :
  snd (readBytes reg len data h)
  = emit (ReadBytes reg len (fst (fst (readBytes reg len data h))))
         (hw_set_i2c_reads (S (i2c_reads h)) h).
Proof.
  unfold readBytes. destruct (i2c_replies h (i2c_reads h)); reflexivity.
Qed.

Lemma getDigitalValue_state s :
  snd (ms5611_getDigitalValue s)
  = set_dev (snd (readBytes MS5611_CMD_ADC_READ 3 (uninitialised 3 (dev s)) (dev s))) s.
Proof.
  unfold ms5611_getDigitalValue.
  destruct (readBytes _ _ _ _) as [[count data] h]. reflexivity.
Qed.

Lemma getPROMValue_state (address : Z) s :
  snd (ms5611_getPROMValue address s)
  = set_dev (snd (readBytes (MS5611_CMD_READ_PROM_plus (address * 2)) 2
                            (uninitialised 2 (dev s)) (dev s))) s.
Proof.
  unfold ms5611_getPROMValue.
  destruct (readBytes _ _ _ _) as [[count data] h]. reflexivity.
Qed.

Lemma readTempStep_eq s :
  ms5611_readTempStep s
  = ms5611_convertD2 (set_d1i (fst (ms5611_getDigitalValue s))
                              (snd (ms5611_getDigitalValue s))).
Proof.
  unfold ms5611_readTempStep. now destruct (ms5611_getDigitalValue s).
Qed.

Lemma readPressureStep_eq s :
  ms5611_readPressureStep s
  = set_newData true
      (ms5611_convertD1 (set_d2i (fst (ms5611_getDigitalValue s))
                                 (snd (ms5611_getDigitalValue s)))).
Proof.
  unfold ms5611_readPressureStep. now destruct (ms5611_getDigitalValue s).
Qed.

Lemma readStep_temp s :
  measureStep s = MS5611_STEP_READ_TEMP ->
  ms5611_readStep s = set_measureStep MS5611_STEP_READ_PRESSURE (ms5611_readTempStep s).
Proof.
  intros E. unfold ms5611_readStep. now rewrite E.
Qed.

Lemma readStep_pressure s :
  measureStep s = MS5611_STEP_READ_PRESSURE ->
  ms5611_readStep s = set_measureStep MS5611_STEP_READ_TEMP (ms5611_readPressureStep s).
Proof.
  intros E. unfold ms5611_readStep. now rewrite E.
Qed.

Lemma readStep_cases s :
  ms5611_readStep s
  = if measureStep s =? MS5611_STEP_READ_TEMP
    then set_measureStep MS5611_STEP_READ_PRESSURE (ms5611_readTempStep s)
    else set_measureStep MS5611_STEP_READ_TEMP (ms5611_readPressureStep s).
Proof. reflexivity. Qed.

End Sampler.

Ltac open_step :=
  rewrite ?readStep_cases, ?readTempStep_eq, ?readPressureStep_eq, ?getDigitalValue_state,
    ?readBytes_dev.

Section Alternation.

Context {T : Target}.

Implicit Type s : ms5611.

(** The state of the sampler after [n] steps. *)
Lemma measureStep_after (n : nat) s :
  measureStep s = MS5611_STEP_READ_TEMP ->
  measureStep (Nat.iter n ms5611_readStep s)
  = if Nat.even n then MS5611_STEP_READ_TEMP else MS5611_STEP_READ_PRESSURE.
Proof.
  intros E. induction n as [|n IH].
  - exact E.
  - rewrite Nat.iter_succ, Nat.even_succ, <- Nat.negb_even.
    rewrite readStep_cases, IH. now destruct (Nat.even n).
Qed.

(** One step reads the converted value once and starts one conversion. *)
Lemma readStep_trace s :
  trace (dev (ms5611_readStep s))
  = trace (dev s)
    ++ [ReadBytes MS5611_CMD_ADC_READ 3
          (fst (fst (readBytes MS5611_CMD_ADC_READ 3 (uninitialised 3 (dev s)) (dev s))));
        WriteBytes (if measureStep s =? MS5611_STEP_READ_TEMP
                    then MS5611_CMD_CONV_D2 else MS5611_CMD_CONV_D1)].
Proof.
  open_step. destruct (measureStep s =? MS5611_STEP_READ_TEMP); open_step;
    cbn; now rewrite <- app_assoc.
Qed.

Lemma steps_done_readStep s : steps_done (ms5611_readStep s) = S (steps_done s).
Proof.
  unfold steps_done. rewrite readStep_trace, filter_app, length_app. cbn. lia.
Qed.

Lemma readStep_frame s :
  locked (ms5611_readStep s) = locked s
  /\ interruptWait (ms5611_readStep s) = interruptWait s
  /\ deviceReset (ms5611_readStep s) = deviceReset s
  /\ coefficients (ms5611_readStep s) = coefficients s
  /\ compensatedTemperature (ms5611_readStep s) = compensatedTemperature s
  /\ compensatedPressure (ms5611_readStep s) = compensatedPressure s
  /\ TCNTx (dev (ms5611_readStep s)) = TCNTx (dev s)
  /\ filter is_calibration_io (trace (dev (ms5611_readStep s)))
     = filter is_calibration_io (trace (dev s)).
Proof.
  repeat split; try (open_step;
    now destruct (measureStep s =? MS5611_STEP_READ_TEMP); open_step).
  rewrite readStep_trace, filter_app. cbn.
  destruct (measureStep s =? MS5611_STEP_READ_TEMP); cbn; apply app_nil_r.
Qed.

(** A step never clears the flag. *)
Lemma readStep_newData s :
  newData (ms5611_readStep s)
  = if measureStep s =? MS5611_STEP_READ_TEMP then newData s else true.
Proof.
  open_step. now destruct (measureStep s =? MS5611_STEP_READ_TEMP); open_step.
Qed.

(** C4: from a state in which the sampler awaits the first read
    ([MS5611_STEP_READ_TEMP]), call number [n + 1] of [ms5611_readStep]
    does the half-cycle of the state it finds and moves to the other state.
    The odd-numbered calls read into [d1i], start the conversion of D2 and
    leave [newData] as it is; the even-numbered calls read into [d2i], start
    the conversion of D1 and set [newData]. *)
Theorem sampler_alternates (s : ms5611) (n : nat) :
  measureStep s = MS5611_STEP_READ_TEMP ->
  let before := Nat.iter n ms5611_readStep s in
  let after := ms5611_readStep before in
  if Nat.even n then
    measureStep before = MS5611_STEP_READ_TEMP
    /\ after = set_measureStep MS5611_STEP_READ_PRESSURE (ms5611_readTempStep before)
    /\ measureStep after = MS5611_STEP_READ_PRESSURE
    /\ newData after = newData before
    /\ d1i after = fst (ms5611_getDigitalValue before)
    /\ d2i after = d2i before
    /\ (exists count, trace (dev after)
          = trace (dev before)
            ++ [ReadBytes MS5611_CMD_ADC_READ 3 count; WriteBytes MS5611_CMD_CONV_D2])
  else
    measureStep before = MS5611_STEP_READ_PRESSURE
    /\ after = set_measureStep MS5611_STEP_READ_TEMP (ms5611_readPressureStep before)
    /\ measureStep after = MS5611_STEP_READ_TEMP
    /\ newData after = true
    /\ d2i after = fst (ms5611_getDigitalValue before)
    /\ d1i after = d1i before
    /\ (exists count, trace (dev after)
          = trace (dev before)
            ++ [ReadBytes MS5611_CMD_ADC_READ 3 count; WriteBytes MS5611_CMD_CONV_D1]).
Proof.
  intros E before after.
  pose proof (measureStep_after n s E) as Hstep. fold before in Hstep.
  pose proof (readStep_trace before) as Htrace. fold after in Htrace.
  pose proof (readStep_newData before) as Hnew. fold after in Hnew.
  destruct (Nat.even n); rewrite Hstep in *; cbn [Z.eqb MS5611_STEP_READ_TEMP
    MS5611_STEP_READ_PRESSURE] in Htrace, Hnew.
  - assert (Ha : after = set_measureStep MS5611_STEP_READ_PRESSURE
                           (ms5611_readTempStep before))
      by (apply readStep_temp; exact Hstep).
    repeat split; try assumption.
    + now rewrite Ha.
    + rewrite Ha. now open_step.
    + rewrite Ha. now open_step.
    + eexists. exact Htrace.
  - assert (Ha : after = set_measureStep MS5611_STEP_READ_TEMP
                           (ms5611_readPressureStep before))
      by (apply readStep_pressure; exact Hstep).
    repeat split; try assumption.
    + now rewrite Ha.
    + rewrite Ha. now open_step.
    + rewrite Ha. now open_step.
    + eexists. exact Htrace.
Qed.

End Alternation.

(** ** The flag mutex and the deferred step *)

Section Handoff.

Context {T : Target}.

Implicit Type s : ms5611.

Lemma ISR_locked s :
  locked s = true -> ISR_TIMER_COMPA s = set_interruptWait true s.
Proof.
  intros E. unfold ISR_TIMER_COMPA. now rewrite E.
Qed.

Lemma ISR_unlocked s :
  locked s = false -> ISR_TIMER_COMPA s = ms5611_readStep (interrupts s).
Proof.
  intros E. unfold ISR_TIMER_COMPA. now rewrite E.
Qed.

Lemma release_pending s :
  interruptWait s = true ->
  ms5611_release s
  = set_interruptWait false
      (on_dev (hw_set_TCNTx 0) (ms5611_readStep (set_locked false s))).
Proof.
  intros E. unfold ms5611_release. cbn [interruptWait set_locked]. now rewrite E.
Qed.

Lemma release_idle s :
  interruptWait s = false -> ms5611_release s = set_locked false s.
Proof.
  intros E. unfold ms5611_release. cbn [interruptWait set_locked]. now rewrite E.
Qed.

Lemma release_locked s : locked (ms5611_release s) = false.
Proof.
  destruct (interruptWait s) eqn:E.
  - rewrite release_pending by exact E. cbn.
    now destruct (readStep_frame (set_locked false s)) as [-> _].
  - now rewrite release_idle.
Qed.

Lemma release_interruptWait s : interruptWait (ms5611_release s) = false.
Proof.
  destruct (interruptWait s) eqn:E.
  - now rewrite release_pending.
  - now rewrite release_idle.
Qed.

(** However many times the timer fires while the mutex is locked, the
    handler only raises [interruptWait]. *)
Lemma ticks_while_locked (k : nat) s :
  locked s = true ->
  Nat.iter (S k) ISR_TIMER_COMPA s = set_interruptWait true s.
Proof.
  intros E. induction k as [|k IH].
  - now apply ISR_locked.
  - rewrite Nat.iter_succ, IH. now rewrite ISR_locked.
Qed.

(** An interrupt outside the critical section runs the step itself and
    asks for no catch-up. *)
Lemma tick_while_unlocked s :
  locked s = false ->
  steps_done (ISR_TIMER_COMPA s) = S (steps_done s)
  /\ interruptWait (ISR_TIMER_COMPA s) = interruptWait s.
Proof.
  intros E. rewrite ISR_unlocked by exact E. split.
  - now rewrite steps_done_readStep.
  - now destruct (readStep_frame (interrupts s)) as (_ & -> & _).
Qed.

(** C3: when the timer fires while the mutex is locked, the handler sets
    [interruptWait] and changes nothing else: [d1i], [d2i], [measureStep],
    [newData] and the device are as before and no step has run.  The next
    [ms5611_release] then runs [ms5611_readStep] exactly once, sets the
    counter of the timer to zero and clears [interruptWait]; releasing
    again runs no further step. *)
Theorem deferred_step_runs_once_on_release (s : ms5611) :
  locked s = true ->
  let s1 := ISR_TIMER_COMPA s in
  let s2 := ms5611_release s1 in
  s1 = set_interruptWait true s
  /\ d1i s1 = d1i s /\ d2i s1 = d2i s
  /\ measureStep s1 = measureStep s /\ newData s1 = newData s
  /\ dev s1 = dev s
  /\ steps_done s1 = steps_done s
  /\ s2 = set_interruptWait false
            (on_dev (hw_set_TCNTx 0) (ms5611_readStep (set_locked false s1)))
  /\ steps_done s2 = S (steps_done s)
  /\ TCNTx (dev s2) = 0
  /\ interruptWait s2 = false
  /\ locked s2 = false
  /\ steps_done (ms5611_release (ms5611_lock s2)) = steps_done s2.
Proof.
  intros E s1 s2.
  assert (E1 : s1 = set_interruptWait true s) by (now apply ISR_locked).
  assert (E2 : s2 = set_interruptWait false
                      (on_dev (hw_set_TCNTx 0) (ms5611_readStep (set_locked false s1))))
    by (apply release_pending; now rewrite E1).
  repeat split; try (now rewrite E1); try exact E2.
  - rewrite E2. unfold steps_done at 1. cbn [dev set_interruptWait on_dev set_dev
      trace hw_set_TCNTx].
    change (steps_done (ms5611_readStep (set_locked false s1)) = S (steps_done s)).
    rewrite steps_done_readStep. now rewrite E1.
  - now rewrite E2.
  - apply release_interruptWait.
  - apply release_locked.
  - rewrite release_idle; [reflexivity|]. apply release_interruptWait.
Qed.

(** ** Failed bus reads *)

Lemma readBytes_timeout (reg : i2c_reg) (len : nat) (data : list byte) (h : hw) :
  i2c_replies h (i2c_reads h) = TimedOut ->
  fst (readBytes reg len data h) = (-1, data).
Proof.
  intros E. unfold readBytes. now rewrite E.
Qed.

(** C7 (as amended): after a read that timed out the two read functions
    still assemble a value from their local buffer, which the transaction
    has not written, and the caller stores it: [d1i], [d2i] and the
    coefficient receive the bytes the uninitialised buffer happens to hold,
    whatever they held before. *)
Theorem failed_read_stores_buffer_content (s : ms5611) (address : Z) :
  i2c_replies (dev s) (i2c_reads (dev s)) = TimedOut ->
  fst (ms5611_getDigitalValue s) = assembled24 (uninitialised 3 (dev s))
  /\ d1i (ms5611_readTempStep s) = assembled24 (uninitialised 3 (dev s))
  /\ d2i (ms5611_readPressureStep s) = assembled24 (uninitialised 3 (dev s))
  /\ fst (ms5611_getPROMValue address s) = assembled16 (uninitialised 2 (dev s))
  /\ (deviceReset s = false ->
      c1 (ms5611_init s) = assembled16 (uninitialised 2 (dev s))).
Proof.
  intros E.
  assert (V : fst (ms5611_getDigitalValue s) = assembled24 (uninitialised 3 (dev s)))
    by (rewrite getDigitalValue_value; now rewrite readBytes_timeout).
  assert (W : forall a s', dev s' = dev s \/ (i2c_replies (dev s') = i2c_replies (dev s)
                /\ i2c_reads (dev s') = i2c_reads (dev s)
                /\ stack_junk (dev s') = stack_junk (dev s)) ->
              fst (ms5611_getPROMValue a s') = assembled16 (uninitialised 2 (dev s))).
  { intros a s' Hs'. rewrite getPROMValue_value.
    assert (E' : i2c_replies (dev s') (i2c_reads (dev s')) = TimedOut).
    { destruct Hs' as [-> | (-> & -> & _)]; exact E. }
    rewrite readBytes_timeout by exact E'. cbn [snd].
    destruct Hs' as [-> | (_ & R & J)]; [reflexivity|].
    unfold uninitialised. now rewrite R, J. }
  repeat split.
  - exact V.
  - rewrite readTempStep_eq. cbn. exact V.
  - rewrite readPressureStep_eq. cbn. exact V.
  - apply W. now left.
  - intros D. unfold ms5611_init. rewrite D. cbn [negb].
    set (s0 := delay MS5611_RESET_DELAY _).
    pose proof (W 0 s0 (or_intror (conj eq_refl (conj eq_refl eq_refl)))) as W0.
    destruct (ms5611_getPROMValue 0 s0) as [v0 s1] eqn:P0. cbn [fst] in W0. subst v0.
    repeat match goal with
    | |- context [ms5611_getPROMValue ?a ?x] =>
        let P := fresh "P" in
        destruct (ms5611_getPROMValue a x) as [? ?] eqn:P;
        apply (f_equal snd) in P; rewrite getPROMValue_state in P;
        cbn [snd] in P; subst
    end.
    unfold ms5611_setTimer. now destruct TIMER2_COMPA_vect_defined.
Qed.

End Handoff.

(** ** The update routine *)

Section Update.

Context {T : Target}.

Implicit Type s : ms5611.

(** What [ms5611_updateData] does when no step is pending. *)
Lemma updateData_idle s :
  interruptWait s = false ->
  ms5611_updateData s
  = save_result
      (compensate (c1 s) (c2 s) (c3 s) (c4 s) (c5 s) (c6 s) (d1i s) (d2i s))
      (set_locked false (set_newData false (ms5611_lock s))).
Proof.
  intros E. unfold ms5611_updateData. rewrite release_idle by exact E. reflexivity.
Qed.

(** C10: [ms5611_updateData] does not look at [newData].  Called with no
    step pending, it computes both results from the raw values and the
    coefficients as they are, stores them and leaves [newData] false,
    whatever [newData] and the stored results were before; a second call
    right after it stores the same two results. *)
Theorem updateData_has_no_newData_guard (s : ms5611) :
  interruptWait s = false ->
  let r := compensate (c1 s) (c2 s) (c3 s) (c4 s) (c5 s) (c6 s) (d1i s) (d2i s) in
  let s1 := ms5611_updateData s in
  let s2 := ms5611_updateData s1 in
  compensatedTemperature s1 = dbl_div (dbl_of_Z (out_temp r)) (dbl_of_Z 100)
  /\ compensatedPressure s1
     = dbl_div (dbl_div (dbl_of_Z (out_p r)) (dbl_of_Z 32768)) (dbl_of_Z 100)
  /\ newData s1 = false
  /\ (forall b : bool, ms5611_updateData (set_newData b s) = s1)
  /\ compensatedTemperature s2 = compensatedTemperature s1
  /\ compensatedPressure s2 = compensatedPressure s1.
Proof.
  intros E r s1 s2.
  assert (E1 : s1 = save_result r (set_locked false (set_newData false (ms5611_lock s))))
    by (now apply updateData_idle).
  assert (E2 : s2 = save_result r (set_locked false (set_newData false (ms5611_lock s1)))).
  { unfold s2. rewrite updateData_idle by (now rewrite E1). now rewrite E1. }
  assert (E3 : forall b : bool, ms5611_updateData (set_newData b s) = s1).
  { intros b. unfold s1. rewrite !updateData_idle by exact E. reflexivity. }
  clearbody s2. subst s2. clearbody s1. subst s1. clearbody r.
  repeat split. exact E3.
Qed.

End Update.

(** ** The calibration coefficients *)

Section Calibration.

Context {T : Target}.

Implicit Type s : ms5611.

Lemma calibration_view_inv s s' :
  calibration_view s = calibration_view s' ->
  deviceReset s = deviceReset s'
  /\ coefficients s = coefficients s'
  /\ filter is_calibration_io (trace (dev s)) = filter is_calibration_io (trace (dev s')).
Proof.
  unfold calibration_view. intros E. repeat split.
  - exact (f_equal (fun v => fst (fst v)) E).
  - exact (f_equal (fun v => snd (fst v)) E).
  - exact (f_equal snd E).
Qed.

Lemma readStep_calibration s :
  calibration_view (ms5611_readStep s) = calibration_view s.
Proof.
  unfold calibration_view.
  destruct (readStep_frame s) as (_ & _ & -> & -> & _ & _ & _ & ->). reflexivity.
Qed.

Lemma release_calibration s :
  calibration_view (ms5611_release s) = calibration_view s.
Proof.
  destruct (interruptWait s) eqn:E.
  - rewrite release_pending by exact E.
    change (calibration_view (ms5611_readStep (set_locked false s)) = calibration_view s).
    now rewrite readStep_calibration.
  - now rewrite release_idle.
Qed.

Lemma setTimer_calibration s :
  calibration_view (ms5611_setTimer s) = calibration_view s.
Proof.
  unfold ms5611_setTimer. now destruct TIMER2_COMPA_vect_defined.
Qed.

Lemma emit_other_calibration (e : event) s :
  is_calibration_io e = false ->
  calibration_view (on_dev (emit e) s) = calibration_view s.
Proof.
  intros E. unfold calibration_view. cbn. rewrite filter_app. cbn. rewrite E.
  now rewrite app_nil_r.
Qed.

(** A call of [ms5611_init] after the first one. *)
Lemma init_again s :
  deviceReset s = true ->
  ms5611_init s
  = ms5611_setTimer
      (delay MS5611_CONV_DELAY
         (ms5611_convertD1
            (set_newData false (set_measureStep MS5611_STEP_READ_TEMP s)))).
Proof.
  intros E. unfold ms5611_init. now rewrite E.
Qed.

Lemma init_again_calibration s :
  deviceReset s = true -> calibration_view (ms5611_init s) = calibration_view s.
Proof.
  intros E. rewrite init_again by exact E. rewrite setTimer_calibration.
  unfold delay, ms5611_convertD1, writeBytes. now rewrite !emit_other_calibration.
Qed.

Lemma updateData_calibration s :
  calibration_view (ms5611_updateData s) = calibration_view s.
Proof.
  unfold ms5611_updateData.
  change (calibration_view (ms5611_release (set_newData false (ms5611_lock s)))
          = calibration_view s).
  now rewrite release_calibration.
Qed.

Lemma ISR_calibration s : calibration_view (ISR_TIMER_COMPA s) = calibration_view s.
Proof.
  unfold ISR_TIMER_COMPA. destruct (locked s); [reflexivity|].
  now rewrite readStep_calibration.
Qed.

Ltac calibration_io :=
  unfold calibration_view, ms5611_convertD1, ms5611_convertD2, writeBytes, emit;
  cbn; rewrite ?filter_app; cbn; rewrite ?app_nil_r; reflexivity.

Lemma getDigitalValue_calibration s :
  calibration_view (snd (ms5611_getDigitalValue s)) = calibration_view s.
Proof.
  rewrite getDigitalValue_state, readBytes_dev. calibration_io.
Qed.

Lemma readTempStep_calibration s :
  calibration_view (ms5611_readTempStep s) = calibration_view s.
Proof.
  rewrite readTempStep_eq, getDigitalValue_state, readBytes_dev. calibration_io.
Qed.

Lemma readPressureStep_calibration s :
  calibration_view (ms5611_readPressureStep s) = calibration_view s.
Proof.
  rewrite readPressureStep_eq, getDigitalValue_state, readBytes_dev. calibration_io.
Qed.

Lemma call_calibration (o : op) s :
  (o = Op_init -> deviceReset s = true) -> touches_prom o = false ->
  calibration_view (call o s) = calibration_view s.
Proof.
  intros D A. destruct o; try discriminate A; cbn [call];
    auto using readStep_calibration, release_calibration, setTimer_calibration,
      init_again_calibration, updateData_calibration, ISR_calibration,
      getDigitalValue_calibration, readTempStep_calibration,
      readPressureStep_calibration.
  - calibration_io.
  - calibration_io.
Qed.

(** The two helpers that talk to the PROM change the trace, not the
    variables. *)
Lemma call_coefficients (o : op) s :
  (o = Op_init -> deviceReset s = true) ->
  deviceReset (call o s) = deviceReset s /\ coefficients (call o s) = coefficients s.
Proof.
  intros D. destruct (touches_prom o) eqn:A.
  - destruct o; try discriminate A; cbn [call].
    + now split.
    + rewrite getPROMValue_state. now split.
  - destruct (calibration_view_inv _ _ (call_calibration o s D A)) as (E1 & E2 & _).
    now split.
Qed.

Lemma calls_coefficients (ops : list op) s :
  deviceReset s = true ->
  deviceReset (calls ops s) = true /\ coefficients (calls ops s) = coefficients s.
Proof.
  revert s. induction ops as [|o ops IH]; intros s D; [now split|].
  change (calls (o :: ops) s) with (calls ops (call o s)).
  destruct (call_coefficients o s (fun _ => D)) as [D' C'].
  rewrite D in D'. destruct (IH _ D') as [D'' C'']. split; congruence.
Qed.

Lemma calls_calibration (ops : list op) s :
  deviceReset s = true -> forallb (fun o => negb (touches_prom o)) ops = true ->
  calibration_view (calls ops s) = calibration_view s.
Proof.
  revert s. induction ops as [|o ops IH]; intros s D A; [reflexivity|].
  change (calls (o :: ops) s) with (calls ops (call o s)).
  cbn [forallb] in A. apply andb_prop in A. destruct A as [A1 A2].
  apply negb_true_iff in A1.
  pose proof (call_calibration o s (fun _ => D) A1) as E.
  rewrite IH; [exact E | | exact A2].
  apply calibration_view_inv in E. destruct E as (E & _). congruence.
Qed.

Lemma readBytes_buffer (reg : i2c_reg) (len : nat) (h : hw) :
  snd (fst (readBytes reg len (uninitialised len h) h))
  = buffer_after_read len h (i2c_reads h).
Proof.
  unfold readBytes, buffer_after_read, uninitialised.
  destruct (i2c_replies h (i2c_reads h)); reflexivity.
Qed.

(** One PROM read: the value returned is assembled from the buffer the
    transaction leaves; the variables of the driver are untouched. *)
Lemma getPROMValue_eq (address : Z) s :
  ms5611_getPROMValue address s
  = (assembled16 (buffer_after_read 2 (dev s) (i2c_reads (dev s))),
     set_dev
       (emit (ReadBytes (MS5611_CMD_READ_PROM_plus (address * 2)) 2
                (fst (fst (readBytes (MS5611_CMD_READ_PROM_plus (address * 2)) 2
                                     (uninitialised 2 (dev s)) (dev s)))))
             (hw_set_i2c_reads (S (i2c_reads (dev s))) (dev s))) s).
Proof.
  rewrite (surjective_pairing (ms5611_getPROMValue address s)).
  now rewrite getPROMValue_value, getPROMValue_state, readBytes_dev, readBytes_buffer.
Qed.

(** The first call of [ms5611_init] stores, in [c1] to [c6], the six words
    of the six reads that follow the reads done so far. *)
Lemma init_first_coefficients s :
  deviceReset s = false ->
  coefficients (ms5611_init s)
  = map (fun k => assembled16 (buffer_after_read 2 (dev s) (k + i2c_reads (dev s))))
        (seq 0 6).
Proof.
  intros D. unfold ms5611_init. rewrite D. cbn [negb].
  rewrite (getPROMValue_eq 0). rewrite (getPROMValue_eq 1).
  rewrite (getPROMValue_eq 2). rewrite (getPROMValue_eq 3).
  rewrite (getPROMValue_eq 4). rewrite (getPROMValue_eq 5).
  unfold ms5611_setTimer. now destruct TIMER2_COMPA_vect_defined.
Qed.

(** The first call of [ms5611_init]. *)
Lemma init_first_trace s :
  deviceReset s = false ->
  exists n1 n2 n3 n4 n5 n6 : Z,
    trace (dev (ms5611_init s))
    = trace (dev s)
      ++ [WriteBytes MS5611_CMD_RESET; Delay MS5611_RESET_DELAY;
          ReadBytes (MS5611_CMD_READ_PROM_plus 0) 2 n1;
          ReadBytes (MS5611_CMD_READ_PROM_plus 2) 2 n2;
          ReadBytes (MS5611_CMD_READ_PROM_plus 4) 2 n3;
          ReadBytes (MS5611_CMD_READ_PROM_plus 6) 2 n4;
          ReadBytes (MS5611_CMD_READ_PROM_plus 8) 2 n5;
          ReadBytes (MS5611_CMD_READ_PROM_plus 10) 2 n6;
          WriteBytes MS5611_CMD_CONV_D1; Delay MS5611_CONV_DELAY].
Proof.
  intros D. unfold ms5611_init. rewrite D. cbn [negb].
  repeat match goal with
  | |- context [ms5611_getPROMValue ?a ?x] =>
      let P := fresh "P" in
      destruct (ms5611_getPROMValue a x) as [? ?] eqn:P;
      apply (f_equal snd) in P; rewrite getPROMValue_state, readBytes_dev in P;
      cbn [snd] in P; subst
  end.
  do 6 eexists.
  unfold ms5611_setTimer. destruct TIMER2_COMPA_vect_defined; cbn;
    rewrite <- !app_assoc; cbn; reflexivity.
Qed.

Lemma init_deviceReset s : deviceReset (ms5611_init s) = true.
Proof.
  destruct (deviceReset s) eqn:D.
  - rewrite init_again by exact D. unfold ms5611_setTimer.
    now destruct TIMER2_COMPA_vect_defined.
  - unfold ms5611_init. rewrite D. cbn [negb].
    repeat match goal with
    | |- context [ms5611_getPROMValue ?a ?x] =>
        let P := fresh "P" in
        destruct (ms5611_getPROMValue a x) as [? ?] eqn:P;
        apply (f_equal snd) in P; rewrite getPROMValue_state in P;
        cbn [snd] in P; subst
    end.
    unfold ms5611_setTimer. now destruct TIMER2_COMPA_vect_defined.
Qed.

(** C9: the first call of [ms5611_init] sends the reset command once and
    reads each of the six PROM words once, and [c1] to [c6] receive the six
    words read, in that order, each assembled from the two bytes of its
    buffer.  After it, whatever functions of the driver are called,
    [ms5611_init] included, the six coefficients keep these values; unless
    the two PROM helpers are called directly there is no further reset
    command and no further PROM read.  No function other than
    [ms5611_init] writes the coefficients at all. *)
Theorem calibration_read_once (s : ms5611) (ops : list op) :
  deviceReset s = false ->
  let s1 := ms5611_init s in
  let s2 := calls ops s1 in
  (exists n1 n2 n3 n4 n5 n6 : Z,
     filter is_calibration_io (trace (dev s1))
     = filter is_calibration_io (trace (dev s))
       ++ [WriteBytes MS5611_CMD_RESET;
           ReadBytes (MS5611_CMD_READ_PROM_plus 0) 2 n1;
           ReadBytes (MS5611_CMD_READ_PROM_plus 2) 2 n2;
           ReadBytes (MS5611_CMD_READ_PROM_plus 4) 2 n3;
           ReadBytes (MS5611_CMD_READ_PROM_plus 6) 2 n4;
           ReadBytes (MS5611_CMD_READ_PROM_plus 8) 2 n5;
           ReadBytes (MS5611_CMD_READ_PROM_plus 10) 2 n6])
  /\ coefficients s1
     = map (fun k => assembled16
                       (buffer_after_read 2 (dev s) (k + i2c_reads (dev s))))
           (seq 0 6)
  /\ deviceReset s1 = true
  /\ coefficients s2 = coefficients s1
  /\ coefficients (ms5611_init s2) = coefficients s1
  /\ trace (dev (ms5611_init s2))
     = trace (dev s2) ++ [WriteBytes MS5611_CMD_CONV_D1; Delay MS5611_CONV_DELAY]
  /\ (forallb (fun o => negb (touches_prom o)) ops = true ->
      filter is_calibration_io (trace (dev s2))
      = filter is_calibration_io (trace (dev s1)))
  /\ (forall (o : op) (s' : ms5611),
        o <> Op_init -> coefficients (call o s') = coefficients s').
Proof.
  intros D s1 s2.
  pose proof (init_deviceReset s) as D1. fold s1 in D1.
  destruct (calls_coefficients ops s1 D1) as [D2 C2]. fold s2 in D2, C2.
  repeat split.
  - destruct (init_first_trace s D) as (n1 & n2 & n3 & n4 & n5 & n6 & E).
    exists n1, n2, n3, n4, n5, n6. fold s1 in E. rewrite E, filter_app. reflexivity.
  - exact (init_first_coefficients s D).
  - exact D1.
  - exact C2.
  - destruct (calibration_view_inv _ _ (init_again_calibration s2 D2)) as (_ & E & _).
    congruence.
  - rewrite init_again by exact D2. unfold ms5611_setTimer.
    destruct TIMER2_COMPA_vect_defined; cbn; now rewrite <- app_assoc.
  - intros A. pose proof (calls_calibration ops s1 D1 A) as E. fold s2 in E.
    now apply calibration_view_inv in E.
  - intros o s' N. apply call_coefficients. intros ->. now elim N.
Qed.

End Calibration.

(** ** The critical section of [ms5611_updateData] *)

Section CriticalSection.

Context {T : Target}.

Implicit Type s : ms5611.
Implicit Type c : config.

Lemma run_app (xs ys : list action) c : run (xs ++ ys) c = run ys (run xs c).
Proof.
  revert c. induction xs as [|a xs IH]; intros c; [reflexivity|]. cbn. apply IH.
Qed.

Lemma history_app (xs ys : list action) c :
  history (xs ++ ys) c = history xs c ++ history ys (run xs c).
Proof.
  revert c. induction xs as [|a xs IH]; intros c; [reflexivity|].
  cbn. now rewrite IH.
Qed.

Lemma run_irqs (n : nat) c :
  run (repeat Irq n) c = (Nat.iter n ISR_TIMER_COMPA (fst c), snd c).
Proof.
  revert c. induction n as [|n IH]; intros [s l]; [reflexivity|].
  cbn [repeat run act fst snd]. rewrite IH. cbn [fst snd].
  now rewrite Nat.iter_succ_r.
Qed.

(** The body of [ms5611_updateData] with the interrupts placed. *)
Lemma interleave_updateData (irqs : list nat) :
  interleave updateData_code irqs
  = repeat Irq (nth 0 irqs 0%nat)
    ++ Main LOCK
    :: (repeat Irq (nth 1 irqs 0%nat) ++ Main COPY_D1
        :: repeat Irq (nth 2 irqs 0%nat) ++ Main COPY_D2
        :: repeat Irq (nth 3 irqs 0%nat) ++ [Main CLEAR_NEWDATA])
    ++ repeat Irq (nth 4 irqs 0%nat)
    ++ Main UNLOCK
    :: repeat Irq (nth 5 irqs 0%nat) ++ Main CATCH_UP
    :: repeat Irq (nth 6 irqs 0%nat) ++ [Main COMPUTE].
Proof.
  destruct irqs as [|n0 [|n1 [|n2 [|n3 [|n4 [|n5 [|n6 irqs]]]]]]];
    cbn [interleave updateData_code nth repeat app];
    repeat (rewrite <- ?app_assoc; cbn [app]); rewrite ?app_nil_r; reflexivity.
Qed.

(** Only [LOCK] and [UNLOCK] write [locked]. *)
Lemma act_locked (a : action) c :
  a <> Main LOCK -> a <> Main UNLOCK ->
  locked (fst (act a c)) = locked (fst c).
Proof.
  intros N1 N2. destruct c as [s l]. destruct a as [[] |]; cbn [act exec fst snd];
    try reflexivity; try (now elim N1); try (now elim N2).
  - unfold catch_up. destruct (interruptWait s); [|reflexivity]. cbn.
    now destruct (readStep_frame s) as [-> _].
  - unfold ISR_TIMER_COMPA. destruct (locked s) eqn:E; [exact E|].
    destruct (readStep_frame (interrupts s)) as [-> _]. exact E.
Qed.

(** Only the statement [newData = false] clears the flag. *)
Lemma act_clears_newData (a : action) c :
  newData (fst c) = true -> newData (fst (act a c)) = false ->
  a = Main CLEAR_NEWDATA.
Proof.
  destruct c as [s l]. destruct a as [[] |]; cbn [act exec fst snd];
    intros E1 E2; try reflexivity.
  - (* LOCK *) change (newData s = false) in E2. congruence.
  - (* COPY_D1 *) congruence.
  - (* COPY_D2 *) congruence.
  - (* UNLOCK *) change (newData s = false) in E2. congruence.
  - (* CATCH_UP *)
    unfold catch_up in E2. destruct (interruptWait s); [|congruence].
    change (newData (ms5611_readStep s) = false) in E2.
    rewrite readStep_newData in E2.
    destruct (measureStep s =? MS5611_STEP_READ_TEMP); congruence.
  - (* COMPUTE *) change (newData s = false) in E2. congruence.
  - (* Irq *)
    unfold ISR_TIMER_COMPA in E2. destruct (locked s).
    + change (newData s = false) in E2. congruence.
    + rewrite readStep_newData in E2. change (newData (interrupts s)) with (newData s) in E2.
      destruct (measureStep (interrupts s) =? MS5611_STEP_READ_TEMP); congruence.
Qed.

Lemma segment_locked (acts : list action) c (b : bool) :
  Forall (fun a => a <> Main LOCK /\ a <> Main UNLOCK) acts ->
  locked (fst c) = b ->
  locked (fst (run acts c)) = b
  /\ forall a before after, In (a, before, after) (history acts c) ->
       locked (fst before) = b /\ locked (fst after) = b.
Proof.
  intros F. revert c. induction F as [|a acts [N1 N2] F IH]; intros c E.
  - split; [exact E | intros ? ? ? []].
  - assert (E' : locked (fst (act a c)) = b) by (now rewrite act_locked).
    destruct (IH _ E') as [R H]. split; [exact R|].
    intros a' before after [X | X].
    + injection X as <- <- <-. now split.
    + exact (H a' before after X).
Qed.

Lemma Forall_irqs (P : action -> Prop) (n : nat) : P Irq -> Forall P (repeat Irq n).
Proof.
  intros H. apply Forall_forall. intros a Ha. apply repeat_spec in Ha. now subst.
Qed.

(** None of the actions writes a coefficient. *)
Lemma act_coefficients (a : action) c :
  coefficients (fst (act a c)) = coefficients (fst c).
Proof.
  destruct c as [s l]. destruct a as [[] |]; cbn [act exec fst snd]; try reflexivity.
  - unfold catch_up. destruct (interruptWait s); [|reflexivity].
    change (coefficients (ms5611_readStep s) = coefficients s).
    now destruct (readStep_frame s) as (_ & _ & _ & -> & _).
  - now destruct (calibration_view_inv _ _ (ISR_calibration s)) as (_ & E & _).
Qed.

Lemma run_coefficients (acts : list action) c :
  coefficients (fst (run acts c)) = coefficients (fst c).
Proof.
  revert c. induction acts as [|a acts IH]; intros c; [reflexivity|].
  cbn. now rewrite IH, act_coefficients.
Qed.

(** While the mutex is locked the handler leaves the raw values alone. *)
Lemma irqs_while_locked (n : nat) s :
  locked s = true ->
  locked (Nat.iter n ISR_TIMER_COMPA s) = true
  /\ d1i (Nat.iter n ISR_TIMER_COMPA s) = d1i s
  /\ d2i (Nat.iter n ISR_TIMER_COMPA s) = d2i s
  /\ newData (Nat.iter n ISR_TIMER_COMPA s) = newData s.
Proof.
  intros E. destruct n as [|k]; [now repeat split|].
  rewrite ticks_while_locked by exact E. now repeat split.
Qed.

(** The instructions after the copies leave the locals alone. *)
Lemma run_locals (acts : list action) c :
  Forall (fun a => a <> Main COPY_D1 /\ a <> Main COPY_D2) acts ->
  snd (run acts c) = snd c.
Proof.
  intros F. revert c. induction F as [|a acts [N1 N2] F IH]; intros c; [reflexivity|].
  cbn. rewrite IH. destruct c as [s l].
  destruct a as [[] |]; try reflexivity; try (now elim N1); now elim N2.
Qed.

Lemma history_sound (acts : list action) c (a : action) (before after : config) :
  In (a, before, after) (history acts c) -> In a acts /\ after = act a before.
Proof.
  revert c. induction acts as [|a' acts IH]; intros c; [intros []|].
  intros [X | X].
  - injection X as <- <- <-. split; [now left | reflexivity].
  - destruct (IH _ X) as [I E]. split; [now right | exact E].
Qed.

Ltac segment :=
  repeat first
    [ apply Forall_nil
    | apply Forall_irqs
    | apply Forall_cons
    | apply Forall_app; split ];
  try (split; discriminate); try discriminate;
  try (cbn; intuition discriminate).

(** Of the functions of the driver, only [ms5611_init] and
    [ms5611_updateData] ever take [newData] from true to false. *)
Lemma call_keeps_newData (o : op) s :
  o <> Op_init -> o <> Op_updateData ->
  newData s = true -> newData (call o s) = true.
Proof.
  intros N1 N2 E. destruct o; cbn [call]; try exact E;
    try (now elim N1); try (now elim N2).
  - now rewrite getPROMValue_state.
  - now rewrite getDigitalValue_state.
  - now rewrite readTempStep_eq, getDigitalValue_state.
  - now rewrite readPressureStep_eq.
  - rewrite readStep_newData. now destruct (measureStep s =? MS5611_STEP_READ_TEMP).
  - destruct (interruptWait s) eqn:W.
    + rewrite release_pending by exact W.
      change (newData (ms5611_readStep (set_locked false s)) = true).
      rewrite readStep_newData.
      now destruct (measureStep (set_locked false s) =? MS5611_STEP_READ_TEMP).
    + now rewrite release_idle.
  - unfold ISR_TIMER_COMPA. destruct (locked s); [exact E|].
    rewrite readStep_newData.
    now destruct (measureStep (interrupts s) =? MS5611_STEP_READ_TEMP).
  - unfold ms5611_setTimer. now destruct TIMER2_COMPA_vect_defined.
Qed.

(** [ms5611_init] resets the flag and never touches the mutex. *)
Lemma init_newData s :
  newData (ms5611_init s) = false /\ locked (ms5611_init s) = locked s.
Proof.
  unfold ms5611_init. destruct (negb (deviceReset s)).
  - repeat match goal with
    | |- context [ms5611_getPROMValue ?a ?x] =>
        let P := fresh "P" in
        destruct (ms5611_getPROMValue a x) as [? ?] eqn:P;
        apply (f_equal snd) in P; rewrite getPROMValue_state in P;
        cbn [snd] in P; subst
    end.
    unfold ms5611_setTimer. now destruct TIMER2_COMPA_vect_defined.
  - unfold ms5611_setTimer. now destruct TIMER2_COMPA_vect_defined.
Qed.

(** When the statements are executed in the order of the source, as they
    would be were [locked] volatile: wherever the timer interrupts
    [ms5611_updateData], the two copies and the clearing of [newData]
    execute with the mutex locked, between the one [LOCK] and the one
    [UNLOCK]; the flag goes from true to false at no other action; the
    arithmetic executes with the mutex released, on the values [d1i] and
    [d2i] had when the mutex was taken; and on return [locked] is false. *)
Lemma critical_section_in_source_order (irqs : list nat) (s : ms5611) (l : locals) :
  let acts := interleave updateData_code irqs in
  let final := run acts (s, l) in
  let s0 := Nat.iter (nth 0 irqs 0%nat) ISR_TIMER_COMPA s in
  let r := compensate (c1 s) (c2 s) (c3 s) (c4 s) (c5 s) (c6 s) (d1i s0) (d2i s0) in
  (forall a before after, In (a, before, after) (history acts (s, l)) ->
     (In a [Main COPY_D1; Main COPY_D2; Main CLEAR_NEWDATA] ->
      locked (fst before) = true /\ locked (fst after) = true)
     /\ (a = Main COMPUTE -> locked (fst before) = false)
     /\ (newData (fst before) = true -> newData (fst after) = false ->
         a = Main CLEAR_NEWDATA))
  /\ locked (fst final) = false
  /\ loc_d1 (snd final) = d1i s0
  /\ loc_d2 (snd final) = d2i s0
  /\ compensatedTemperature (fst final)
     = dbl_div (dbl_of_Z (out_temp r)) (dbl_of_Z 100)
  /\ compensatedPressure (fst final)
     = dbl_div (dbl_div (dbl_of_Z (out_p r)) (dbl_of_Z 32768)) (dbl_of_Z 100)
  /\ fst (run (interleave updateData_code []) (s, l)) = ms5611_updateData s
  /\ (forall (o : op) (s' : ms5611),
        o <> Op_init -> o <> Op_updateData ->
        newData s' = true -> newData (call o s') = true)
  /\ (forall s' : ms5611,
        newData (ms5611_init s') = false /\ locked (ms5611_init s') = locked s').
Proof.
  intros acts final s0 r.
  set (n1 := nth 1 irqs 0%nat). set (n2 := nth 2 irqs 0%nat).
  set (n3 := nth 3 irqs 0%nat). set (n4 := nth 4 irqs 0%nat).
  set (n5 := nth 5 irqs 0%nat). set (n6 := nth 6 irqs 0%nat).
  set (inner := (repeat Irq n1 ++ Main COPY_D1
                 :: repeat Irq n2 ++ Main COPY_D2
                 :: repeat Irq n3 ++ [Main CLEAR_NEWDATA]) ++ repeat Irq n4).
  set (outer := repeat Irq n5 ++ Main CATCH_UP :: repeat Irq n6 ++ [Main COMPUTE]).
  assert (Eacts : acts = repeat Irq (nth 0 irqs 0%nat)
                         ++ Main LOCK :: inner ++ Main UNLOCK :: outer).
  { unfold acts, inner, outer. rewrite interleave_updateData.
    now rewrite <- !app_assoc. }
  set (c0 := run (repeat Irq (nth 0 irqs 0%nat)) (s, l)).
  assert (Ec0 : c0 = (s0, l)) by (unfold c0; now rewrite run_irqs).
  set (cl := act (Main LOCK) c0).
  assert (Lcl : locked (fst cl) = true) by (unfold cl; now rewrite Ec0).
  destruct (segment_locked inner cl true) as [Linner Hinner];
    [unfold inner; segment | exact Lcl |].
  set (cu := act (Main UNLOCK) (run inner cl)).
  assert (Lcu : locked (fst cu) = false)
    by (unfold cu; now destruct (run inner cl)).
  destruct (segment_locked outer cu false) as [Louter Houter];
    [unfold outer; segment | exact Lcu |].
  assert (Efinal : final = run outer cu).
  { unfold final. rewrite Eacts, run_app. cbn [run]. fold c0. fold cl.
    rewrite run_app. cbn [run]. reflexivity. }
  (* the locals after the second copy *)
  assert (Esnap : snd (run inner cl) = {| loc_d1 := d1i s0; loc_d2 := d2i s0 |}).
  { unfold inner. rewrite !run_app. cbn [run]. rewrite !run_app. cbn [run].
    rewrite run_app. cbn [run].
    unfold cl. rewrite Ec0. cbn [act exec].
    rewrite (run_irqs n1). cbn [fst snd].
    destruct (irqs_while_locked n1 (ms5611_lock s0) eq_refl) as (L1 & D1 & D2 & _).
    cbn [act exec]. rewrite (run_irqs n2). cbn [fst snd].
    destruct (irqs_while_locked n2 _ L1) as (L2 & D1' & D2' & _).
    cbn [act exec]. rewrite (run_irqs n3). cbn [fst snd loc_d1 loc_d2].
    cbn [act exec]. rewrite (run_irqs n4). cbn [fst snd].
    rewrite D1, D2', D2. reflexivity. }
  assert (Elocals : snd final = {| loc_d1 := d1i s0; loc_d2 := d2i s0 |}).
  { rewrite Efinal, run_locals by (unfold outer; segment).
    unfold cu. destruct (run inner cl) as [su lu]. exact Esnap. }
  assert (Ecoef : forall c, coefficients (fst c) = coefficients s ->
            c1 (fst c) = c1 s /\ c2 (fst c) = c2 s /\ c3 (fst c) = c3 s
            /\ c4 (fst c) = c4 s /\ c5 (fst c) = c5 s /\ c6 (fst c) = c6 s).
  { intros c E. unfold coefficients in E. injection E as -> -> -> -> -> ->.
    now repeat split. }
  set (cc := run (repeat Irq n5 ++ Main CATCH_UP :: repeat Irq n6) cu).
  assert (Ecompute : final = act (Main COMPUTE) cc).
  { rewrite Efinal. unfold outer, cc.
    change (Main CATCH_UP :: repeat Irq n6 ++ [Main COMPUTE])
      with ((Main CATCH_UP :: repeat Irq n6) ++ [Main COMPUTE]).
    rewrite app_assoc, run_app. reflexivity. }
  assert (Lcc : snd cc = {| loc_d1 := d1i s0; loc_d2 := d2i s0 |}).
  { unfold cc. rewrite run_locals by segment.
    unfold cu. destruct (run inner cl) as [su lu]. exact Esnap. }
  assert (Ccc : coefficients (fst cc) = coefficients s).
  { unfold cc. rewrite run_coefficients. unfold cu.
    rewrite act_coefficients, run_coefficients. unfold cl.
    rewrite act_coefficients. unfold c0. now rewrite run_coefficients. }
  split.
  { intros a before after H. split; [|split].
    - (* the critical section *)
      intros I. rewrite Eacts, history_app in H. apply in_app_or in H.
      destruct H as [H | [H | H]].
      + apply history_sound in H. destruct H as [H _]. apply repeat_spec in H.
        subst a. cbn in I. intuition discriminate.
      + injection H as <- _ _. cbn in I. intuition discriminate.
      + fold c0 in H. fold cl in H. rewrite history_app in H. apply in_app_or in H.
        destruct H as [H | [H | H]].
        * exact (Hinner a before after H).
        * injection H as <- _ _. cbn in I. intuition discriminate.
        * fold cu in H. apply history_sound in H. destruct H as [H _].
          exfalso. revert H I. clear. unfold outer. intros H I.
          apply in_app_or in H. destruct H as [H | [H | H]];
            [apply repeat_spec in H; subst a; cbn in I; intuition discriminate
            | subst a; cbn in I; intuition discriminate |].
          apply in_app_or in H. destruct H as [H | [H | []]];
            [apply repeat_spec in H; subst a; cbn in I; intuition discriminate
            | subst a; cbn in I; intuition discriminate ].
    - (* the arithmetic *)
      intros ->. rewrite Eacts, history_app in H. apply in_app_or in H.
      destruct H as [H | [H | H]].
      + apply history_sound in H. destruct H as [H _]. apply repeat_spec in H.
        discriminate H.
      + discriminate H.
      + fold c0 in H. fold cl in H. rewrite history_app in H. apply in_app_or in H.
        destruct H as [H | [H | H]].
        * apply history_sound in H. destruct H as [H _].
          exfalso. revert H. clear. unfold inner. intros H.
          assert (F : Forall (fun a => a <> Main COMPUTE)
                        ((repeat Irq n1 ++ Main COPY_D1
                          :: repeat Irq n2 ++ Main COPY_D2
                          :: repeat Irq n3 ++ [Main CLEAR_NEWDATA]) ++ repeat Irq n4))
            by segment.
          rewrite Forall_forall in F. now apply (F _ H).
        * discriminate H.
        * fold cu in H. exact (proj1 (Houter _ before after H)).
    - (* the flag *)
      intros E1 E2. apply history_sound in H. destruct H as [_ ->].
      now apply act_clears_newData with (c := before). }
  split. { rewrite Efinal. exact Louter. }
  split. { now rewrite Elocals. }
  split. { now rewrite Elocals. }
  assert (Esaved : fst final = save_result r (fst cc)).
  { rewrite Ecompute.
    destruct (Ecoef cc Ccc) as (K1 & K2 & K3 & K4 & K5 & K6).
    destruct cc as [sc lc]. cbn [act exec fst snd] in *.
    rewrite K1, K2, K3, K4, K5, K6, Lcc. reflexivity. }
  clearbody r. rewrite Esaved.
  split; [reflexivity|]. split; [reflexivity|]. split; [reflexivity|].
  split; [exact call_keeps_newData | exact init_newData].
Qed.

(** *** Whatever the place of the store [locked = true] *)










End CriticalSection.

(** ** The altitude *)

Section Altitude.

Local Open Scope R_scope.

Lemma Rpower_base_1 (a : R) : Rpower 1 a = 1.
Proof.
  unfold Rpower. now rewrite ln_1, Rmult_0_r, exp_0.
Qed.

Lemma real_pow_pos (x y : R) : 0 < x -> real_pow x y = Rpower x y.
Proof.
  intros H. unfold real_pow. destruct (Rlt_dec 0 x); [reflexivity | contradiction].
Qed.

Lemma real_pow_0 (y : R) : real_pow 0 y = 0.
Proof.
  unfold real_pow. destruct (Rlt_dec 0 0); [lra | reflexivity].
Qed.

Lemma Rpower_exponent_inj (x a b : R) :
  0 < x -> x <> 1 -> Rpower x a = Rpower x b -> a = b.
Proof.
  intros Hx H1 E. apply (f_equal ln) in E. rewrite !ln_Rpower in E.
  apply Rmult_eq_reg_r with (r := ln x); [exact E|]. now apply ln_neq_0.
Qed.

Lemma getAltitude_real (base : R) (compare : Z) (timer2 : bool)
      (s : @ms5611 (real_target base compare timer2)) :
  ms5611_getAltitude s
  = barometric_altitude 0.1902949572 (compensatedPressure s) base.
Proof.
  unfold ms5611_getAltitude, barometric_altitude.
  cbn [dbl_mul dbl_sub dbl_div dbl_pow dbl_lit dbl_of_Z real_target
       MS5611_BASE_SEA_PRESSURE].
  unfold Q2R. cbn [Qnum Qden].
  replace (1902949572 * / 10000000000) with 0.1902949572 by lra.
  replace (28815 * / 100 / (65 * / 10000)) with (288.15 / 0.0065) by lra.
  change (@double (real_target base compare timer2)) with R.
  ring.
Qed.

(** C8 (as amended): [ms5611_getAltitude] takes no argument.  It raises the
    quotient of the stored pressure by the constant
    [MS5611_BASE_SEA_PRESSURE] of the header to the power 0.1902949572,
    subtracts the result from 1 and multiplies by 288.15 / 0.0065; over the
    real numbers this is the barometric formula with that exponent and
    that constant as reference. *)
Theorem getAltitude_uses_header_reference :
  (forall (T : Target) (s : ms5611),
     ms5611_getAltitude s
     = dbl_mul
         (dbl_sub (dbl_of_Z 1)
            (dbl_pow (dbl_div (ms5611_getPressure s) MS5611_BASE_SEA_PRESSURE)
                     (dbl_lit 0.1902949572%Q)))
         (dbl_div (dbl_lit 288.15%Q) (dbl_lit 0.0065%Q)))
  /\ (forall (base : R) (compare : Z) (timer2 : bool)
             (s : @ms5611 (real_target base compare timer2)),
        ms5611_getAltitude s
        = barometric_altitude 0.1902949572 (ms5611_getPressure s) base).
Proof.
  split; [reflexivity|]. intros base compare timer2 s. apply getAltitude_real.
Qed.

(** C8 (fails on the code): with 1013.25 in the header and a stored
    pressure of 506.625, the result is neither the formula of the design
    document for a caller's reference of 506.625, which is zero, nor that
    formula for the reference 1013.25, whose exponent is 1 / 5.25529. *)
Lemma getAltitude_is_not_the_documented_formula :
  let s := @set_compensatedPressure real_bench_target 506.625
             (power_on answering_hw) in
  ms5611_getAltitude s <> barometric_altitude (1 / 5.25529) 506.625 506.625
  /\ ms5611_getAltitude s <> barometric_altitude (1 / 5.25529) 506.625 1013.25.
Proof.
  intros s.
  assert (G : ms5611_getAltitude s = barometric_altitude 0.1902949572 506.625 1013.25)
    by exact (getAltitude_real 1013.25 124 true s).
  rewrite G. clear G. clearbody s.
  change (@double real_bench_target) with R.
  unfold barometric_altitude.
  replace (506.625 / 1013.25) with (/ 2) by lra.
  replace (506.625 / 506.625) with 1 by lra.
  rewrite !(real_pow_pos (/ 2)) by lra. rewrite (real_pow_pos 1) by lra.
  rewrite Rpower_base_1.
  assert (Hhalf : 0 < / 2 /\ / 2 <> 1) by (split; lra).
  split; intros E.
  - assert (E' : Rpower (/ 2) 0.1902949572 = Rpower (/ 2) 0).
    { rewrite Rpower_O by lra.
      apply Rmult_eq_reg_l with (r := 288.15 / 0.0065); [lra|].
      apply Rmult_integral_contrapositive_currified; lra. }
    apply Rpower_exponent_inj in E'; [lra | apply Hhalf | apply Hhalf].
  - assert (E' : Rpower (/ 2) 0.1902949572 = Rpower (/ 2) (1 / 5.25529)).
    { assert (K : 288.15 / 0.0065 <> 0) by lra.
      apply Rmult_eq_reg_l in E; [lra | exact K]. }
    apply Rpower_exponent_inj in E'; [lra | apply Hhalf | apply Hhalf].
Qed.

(** At the pressure 0 of the power-on state the quotient is 0, its power
    is 0, and the altitude is 288.15 / 0.0065. *)
Lemma getAltitude_at_zero_pressure (base : R) (compare : Z) (timer2 : bool)
      (s : @ms5611 (real_target base compare timer2)) :
  compensatedPressure s = 0 -> ms5611_getAltitude s = 288.15 / 0.0065.
Proof.
  intros E. rewrite getAltitude_real. unfold barometric_altitude. rewrite E.
  change (@double (real_target base compare timer2)) with R.
  replace (0 / base) with 0 by (unfold Rdiv; ring).
  rewrite real_pow_0. ring.
Qed.

End Altitude.

(** ** The theorems at concrete states *)

(** C7 (fails on the code): on a bus whose reads time out, over a stack
    holding FF, the step that reads into [d1i] replaces 0 by 16777215, the
    one that reads into [d2i] does the same, and [ms5611_init] replaces the
    coefficient 0 by 65535: the old values are not kept. *)
Lemma failed_read_does_not_keep_old_value :
  let s := @power_on bench_target silent_hw in
  i2c_replies (dev s) (i2c_reads (dev s)) = TimedOut
  /\ d1i s = 0 /\ d1i (ms5611_readTempStep s) = 16777215
  /\ d1i (ms5611_readTempStep s) <> d1i s
  /\ d2i s = 0 /\ d2i (ms5611_readPressureStep s) = 16777215
  /\ d2i (ms5611_readPressureStep s) <> d2i s
  /\ c1 s = 0 /\ c1 (ms5611_init s) = 65535
  /\ c1 (ms5611_init s) <> c1 s.
Proof.
  intros s.
  assert (A : d1i (ms5611_readTempStep s) = 16777215) by reflexivity.
  assert (B : d2i (ms5611_readPressureStep s) = 16777215) by reflexivity.
  assert (C : c1 (ms5611_init s) = 65535) by reflexivity.
  repeat split; try reflexivity; try assumption.
  - rewrite A. discriminate.
  - rewrite B. discriminate.
  - rewrite C. discriminate.
Qed.

Lemma failed_read_stores_buffer_content_witness :
  let s := @power_on bench_target silent_hw in
  i2c_replies (dev s) (i2c_reads (dev s)) = TimedOut
  /\ d1i (ms5611_readTempStep s) = assembled24 [xff; xff; xff]
  /\ fst (ms5611_getPROMValue 0 s) = assembled16 [xff; xff].
Proof.
  intros s.
  pose proof (failed_read_stores_buffer_content s 0 eq_refl) as (_ & A & _ & B & _).
  split; [reflexivity | split; [exact A | exact B]].
Defined.

Lemma sampler_alternates_witness :
  let s := @power_on bench_target answering_hw in
  measureStep s = MS5611_STEP_READ_TEMP
  /\ measureStep (Nat.iter 2 ms5611_readStep s) = MS5611_STEP_READ_TEMP
  /\ newData (Nat.iter 2 ms5611_readStep s) = true.
Proof.
  intros s.
  pose proof (sampler_alternates s 1 eq_refl) as (_ & _ & A & B & _).
  split; [reflexivity | split; [exact A | exact B]].
Defined.

Lemma deferred_step_runs_once_on_release_witness :
  let s := ms5611_lock (@power_on bench_target answering_hw) in
  locked s = true
  /\ steps_done (ISR_TIMER_COMPA s) = steps_done s
  /\ steps_done (ms5611_release (ISR_TIMER_COMPA s)) = S (steps_done s)
  /\ TCNTx (dev (ms5611_release (ISR_TIMER_COMPA s))) = 0.
Proof.
  intros s.
  pose proof (deferred_step_runs_once_on_release s eq_refl)
    as (_ & _ & _ & _ & _ & _ & A & _ & B & C & _).
  split; [reflexivity | split; [exact A | split; [exact B | exact C]]].
Defined.

Lemma updateData_has_no_newData_guard_witness :
  let s := @power_on bench_target answering_hw in
  interruptWait s = false
  /\ newData s = false
  /\ compensatedTemperature (ms5611_updateData s)
     = dbl_div (dbl_of_Z (out_temp (compensate 0 0 0 0 0 0 0 0))) (dbl_of_Z 100)
  /\ compensatedTemperature (ms5611_updateData (ms5611_updateData s))
     = compensatedTemperature (ms5611_updateData s)
  /\ compensatedPressure (ms5611_updateData (ms5611_updateData s))
     = compensatedPressure (ms5611_updateData s).
Proof.
  intros s.
  pose proof (updateData_has_no_newData_guard s eq_refl) as (A & _ & _ & _ & B & C).
  split; [reflexivity | split; [reflexivity | split; [exact A | split; [exact B | exact C]]]].
Defined.

Lemma calibration_read_once_witness :
  let s := @power_on bench_target answering_hw in
  let ops := [Op_ISR; Op_ISR; Op_updateData; Op_init; Op_ISR; Op_getAltitude] in
  deviceReset s = false
  /\ coefficients (ms5611_init s)
     = map (fun k => assembled16
                       (buffer_after_read 2 (dev s) (k + i2c_reads (dev s))))
           (seq 0 6)
  /\ coefficients (calls ops (ms5611_init s)) = coefficients (ms5611_init s)
  /\ filter is_calibration_io (trace (dev (calls ops (ms5611_init s))))
     = filter is_calibration_io (trace (dev (ms5611_init s))).
Proof.
  intros s ops.
  pose proof (calibration_read_once s ops eq_refl)
    as (_ & W & _ & A & _ & _ & B & _).
  split; [reflexivity | split; [exact W | split; [exact A | exact (B eq_refl)]]].
Defined.


(** What the missing [volatile] of [locked] allows: with the store
    [locked = true] dropped and the timer firing between the two copies,
    the handler runs its step at once, so that [d2] is the value it has
    just read, 9085466, while [d1] is the older one; the flag it sets is
    cleared by the statement that follows, and no step is deferred. *)
Lemma copies_unprotected_when_lock_store_is_dropped :
  let s := ms5611_readStep (ms5611_init (@power_on bench_target answering_hw)) in
  let order := [COPY_D1; COPY_D2; CLEAR_NEWDATA; UNLOCK; CATCH_UP; COMPUTE] in
  let final := run (interleave order [0; 1]%nat)
                   (s, {| loc_d1 := 0; loc_d2 := 0 |}) in
  In order updateData_orders
  /\ d2i s = 0 /\ newData s = false /\ locked s = false
  /\ loc_d1 (snd final) = d1i s
  /\ loc_d2 (snd final) = 9085466
  /\ newData (fst final) = false
  /\ steps_done (fst final) = S (steps_done s).
Proof.
  intros s order final. split; [cbn; tauto|]. repeat split; reflexivity.
Qed.

(** * Further properties of the driver *)

(** ** The compensation for every input *)

(** X1: before the second-order block, [dt], [off] and [sens] are the
    values of the computation in unbounded integers for every input: the
    64-bit variables never wrap and the mixed unsigned subtraction gives
    the signed difference. *)
Theorem first_order_dt_off_sens_exact (c1 c2 c3 c4 c5 c6 d2 : Z) :
  coeff c1 -> coeff c2 -> coeff c3 -> coeff c4 -> coeff c5 -> raw24 d2 ->
  let f := compute_first_order c1 c2 c3 c4 c5 c6 d2 in
  fo_dt f = d2 - c5 * 256
  /\ fo_off f = c2 * 65536 + (c4 * (d2 - c5 * 256)) / 128
  /\ fo_sens f = c1 * 32768 + (c3 * (d2 - c5 * 256)) / 256.
Proof.
  intros Hc1 Hc2 Hc3 Hc4 Hc5 Hd2 f.
  pose proof (first_order_dt c1 c2 c3 c4 c5 c6 d2 Hc5 Hd2) as Edt.
  pose proof (first_order_off c1 c2 c3 c4 c5 c6 d2 Hc2 Hc4 Hc5 Hd2) as Eoff.
  pose proof (first_order_sens c1 c2 c3 c4 c5 c6 d2 Hc1 Hc3 Hc5 Hd2) as Esens.
  fold f in Edt, Eoff, Esens. rewrite Edt, Eoff, Esens.
  unfold Reference.OFF1, Reference.SENS1, Reference.dT. shifts.
  repeat split; reflexivity.
Qed.

(** X2: for every input the two stored integers are those of the
    computation in unbounded integers started from the code's own
    first-order temperature, 2000 plus the 32-bit product shifted: the
    32-bit product is the only place where the code leaves the unbounded
    computation. *)
Theorem compensate_wraps_only_in_c6s (c1 c2 c3 c4 c5 c6 d1 d2 : Z) :
  coeff c1 -> coeff c2 -> coeff c3 -> coeff c4 -> coeff c5 -> coeff c6 ->
  raw24 d1 -> raw24 d2 ->
  compensate c1 c2 c3 c4 c5 c6 d1 d2
  = unbounded_from_temp
      (2000 + Z.shiftr (to_int32 (c6 * (d2 - c5 * 256))) 23)
      c1 c2 c3 c4 c5 d1 d2.
Proof.
  intros Hc1 Hc2 Hc3 Hc4 Hc5 Hc6 Hd1 Hd2.
  pose proof (first_order_dt c1 c2 c3 c4 c5 c6 d2 Hc5 Hd2) as Edt.
  pose proof (first_order_temp c1 c2 c3 c4 c5 c6 d2 Hc5 Hc6 Hd2) as Etemp.
  pose proof (first_order_off c1 c2 c3 c4 c5 c6 d2 Hc2 Hc4 Hc5 Hd2) as Eoff.
  pose proof (first_order_sens c1 c2 c3 c4 c5 c6 d2 Hc1 Hc3 Hc5 Hd2) as Esens.
  pose proof (first_order_temp_range c1 c2 c3 c4 c5 c6 d2 Hc5 Hc6 Hd2) as Rtemp.
  pose proof (dT_range c5 d2 Hc5 Hd2) as Rdt.
  pose proof (OFF1_range c2 c4 c5 d2 Hc2 Hc4 Hc5 Hd2) as Roff.
  pose proof (SENS1_range c1 c3 c5 d2 Hc1 Hc3 Hc5 Hd2) as Rsens.
  assert (EdT : d2 - c5 * 256 = Reference.dT c5 d2)
    by (unfold Reference.dT; now shifts).
  rewrite EdT. unfold compensate, unbounded_from_temp.
  set (f := compute_first_order c1 c2 c3 c4 c5 c6 d2) in *.
  rewrite (second_order_exact f) by lia.
  rewrite <- Etemp, <- Eoff, <- Esens, <- Edt.
  pose proof (OFF2_range (fo_temp f) ltac:(lia)) as Ro2.
  pose proof (SENS2_range (fo_temp f) ltac:(lia)) as Rs2.
  destruct (fo_temp f <? 2000);
    (rewrite compute_pressure_exact;
     [ reflexivity | assumption | cbn [fo_off]; lia | cbn [fo_sens]; lia ]).
Qed.

(** X3: whatever the coefficients and the raw samples, the stored
    temperature is at most 2255, that is 22.55 degrees Celsius, and at
    least -129328. *)
Theorem stored_temperature_bounds (c1 c2 c3 c4 c5 c6 d1 d2 : Z) :
  coeff c1 -> coeff c2 -> coeff c3 -> coeff c4 -> coeff c5 -> coeff c6 ->
  raw24 d1 -> raw24 d2 ->
  -129328 <= out_temp (compensate c1 c2 c3 c4 c5 c6 d1 d2) <= 2255.
Proof.
  intros Hc1 Hc2 Hc3 Hc4 Hc5 Hc6 Hd1 Hd2.
  pose proof (first_order_dt c1 c2 c3 c4 c5 c6 d2 Hc5 Hd2) as Edt.
  pose proof (first_order_off c1 c2 c3 c4 c5 c6 d2 Hc2 Hc4 Hc5 Hd2) as Eoff.
  pose proof (first_order_sens c1 c2 c3 c4 c5 c6 d2 Hc1 Hc3 Hc5 Hd2) as Esens.
  pose proof (first_order_temp_range c1 c2 c3 c4 c5 c6 d2 Hc5 Hc6 Hd2) as Rtemp.
  pose proof (dT_range c5 d2 Hc5 Hd2) as Rdt.
  pose proof (OFF1_range c2 c4 c5 d2 Hc2 Hc4 Hc5 Hd2) as Roff.
  pose proof (SENS1_range c1 c3 c5 d2 Hc1 Hc3 Hc5 Hd2) as Rsens.
  unfold compensate.
  set (f := compute_first_order c1 c2 c3 c4 c5 c6 d2) in *.
  change (out_temp (compute_pressure d1 (second_order f)))
    with (fo_temp (second_order f)).
  rewrite (second_order_exact f) by lia.
  assert (RT2 : 0 <= Reference.T2 (fo_dt f) <= 131072).
  { unfold Reference.T2.
    pose proof (square_bound (fo_dt f) 16777216 ltac:(lia)).
    shifts. divlia. }
  destruct (fo_temp f <? 2000) eqn:E; cbn [fo_temp]; lia.
Qed.

(** X4: with all six coefficients zero, as after a calibration that read
    nothing but zeros, every pair of raw samples gives the temperature
    2000 and the pressure 0. *)
Theorem zero_coefficients_give_constant_output (d1 d2 : Z) :
  raw24 d1 -> raw24 d2 ->
  compensate 0 0 0 0 0 0 d1 d2 = {| out_temp := 2000; out_p := 0 |}.
Proof.
  intros Hd1 Hd2.
  assert (Z0 : coeff 0) by (unfold coeff; lia).
  assert (F : fits_int32 (0 * Reference.dT 0 d2)).
  { unfold fits_int32, fits_sint. change (2 ^ (32 - 1)) with 2147483648. lia. }
  destruct (compensate_exact_when_product_fits 0 0 0 0 0 0 d1 d2
              Z0 Z0 Z0 Z0 Z0 Z0 Hd1 Hd2 F) as [Et Ep].
  destruct (compensate 0 0 0 0 0 0 d1 d2) as [t p]. cbn [out_temp out_p] in Et, Ep.
  subst t p. unfold Reference.compensate, Reference.TEMP1, Reference.OFF1,
    Reference.SENS1, Reference.dT.
  repeat rewrite ?Z.shiftl_0_l, ?Z.mul_0_l, ?Z.shiftr_0_l, ?Z.add_0_r.
  change (2000 <? 2000) with false. cbn [Reference.TEMP Reference.P].
  now rewrite Z.mul_0_r, Z.shiftr_0_l.
Qed.

(** X5: the second-order block, for a [temp] it could be given by a
    correct first-order stage: at 2000 and above it changes nothing; below
    2000 it subtracts [(dt*dt) >> 31] from [temp], [5*(temp-2000)^2 >> 1]
    from [off] and [5*(temp-2000)^2 >> 2] from [sens]; below -1500 it
    subtracts in addition [7*(temp+1500)^2] from [off] and
    [11*(temp+1500)^2 >> 1] from [sens].  No 64-bit variable wraps. *)
Theorem second_order_block_cases (dt temp off sens : Z) :
  -16776960 <= dt <= 16777215 ->
  -140000 <= temp <= 140000 ->
  -8589900000 <= off <= 12884800000 ->
  -4294950000 <= sens <= 6442400000 ->
  let f := {| fo_dt := dt; fo_temp := temp; fo_off := off; fo_sens := sens |} in
  let sq := (temp - 2000) * (temp - 2000) in
  let extra := (temp + 1500) * (temp + 1500) in
  (2000 <= temp -> second_order f = f)
  /\ (-1500 <= temp < 2000 ->
      second_order f
      = {| fo_dt := dt; fo_temp := temp - (dt * dt) / 2147483648;
           fo_off := off - (5 * sq) / 2; fo_sens := sens - (5 * sq) / 4 |})
  /\ (temp < -1500 ->
      second_order f
      = {| fo_dt := dt; fo_temp := temp - (dt * dt) / 2147483648;
           fo_off := off - ((5 * sq) / 2 + 7 * extra);
           fo_sens := sens - ((5 * sq) / 4 + (11 * extra) / 2) |}).
Proof.
  intros Hdt Htemp Hoff Hsens f sq extra.
  pose proof (second_order_exact f Hdt Htemp Hoff Hsens) as E.
  unfold Reference.T2, Reference.OFF2, Reference.SENS2 in E.
  cbn [fo_dt fo_temp fo_off fo_sens f] in E.
  replace ((temp - 2000) ^ 2) with sq in E by (unfold sq; ring).
  replace ((temp + 1500) ^ 2) with extra in E by (unfold extra; ring).
  revert E. shifts. intros E.
  repeat split; intros H; rewrite E.
  - assert (L : (temp <? 2000) = false) by (apply Z.ltb_ge; lia). now rewrite L.
  - assert (L : (temp <? 2000) = true) by (apply Z.ltb_lt; lia).
    assert (L' : (temp <? -1500) = false) by (apply Z.ltb_ge; lia).
    rewrite L, L'. now rewrite !Z.add_0_r.
  - assert (L : (temp <? 2000) = true) by (apply Z.ltb_lt; lia).
    assert (L' : (temp <? -1500) = true) by (apply Z.ltb_lt; lia).
    now rewrite L, L'.
Qed.

(** ** Bus reads and initialisation *)

Ltac open_prom_reads :=
  repeat match goal with
  | |- context [ms5611_getPROMValue ?a ?x] =>
      let P := fresh "P" in
      let C := fresh "C" in
      pose proof (getPROMValue_coeff a x) as C;
      destruct (ms5611_getPROMValue a x) as [? ?] eqn:P;
      cbn [fst] in C;
      apply (f_equal snd) in P; rewrite getPROMValue_state, readBytes_dev in P;
      cbn [snd] in P; subst
  end.

Section BusReads.

Context {T : Target}.

Implicit Type s : ms5611.

Lemma byte_val_range (b : byte) : 0 <= byte_val b <= 255.
Proof.
  unfold byte_val. pose proof (Byte.to_N_bounded b). lia.
Qed.

Lemma byte_val_inj (a b : byte) : byte_val a = byte_val b -> a = b.
Proof.
  unfold byte_val. intros E. apply N2Z.inj in E.
  pose proof (Byte.of_to_N a) as Ha. rewrite E, Byte.of_to_N in Ha. congruence.
Qed.

Lemma getDigitalValue_ok s (b0 b1 b2 : byte) (rest : list byte) :
  i2c_replies (dev s) (i2c_reads (dev s)) = Transferred (b0 :: b1 :: b2 :: rest) ->
  fst (ms5611_getDigitalValue s)
  = byte_val b0 * 65536 + byte_val b1 * 256 + byte_val b2.
Proof.
  intros E. rewrite getDigitalValue_value. unfold readBytes. rewrite E. reflexivity.
Qed.

(** X6: when the device answers a read of a converted value with at least
    three bytes, the sampler stores the first three as a big-endian
    number, whatever the buffer and the variable held before; different
    byte triples give different stored values. *)
Theorem raw_read_is_big_endian s (b0 b1 b2 : byte) (rest : list byte) :
  i2c_replies (dev s) (i2c_reads (dev s)) = Transferred (b0 :: b1 :: b2 :: rest) ->
  let v := byte_val b0 * 65536 + byte_val b1 * 256 + byte_val b2 in
  d1i (ms5611_readTempStep s) = v
  /\ d2i (ms5611_readPressureStep s) = v
  /\ 0 <= v <= 16777215
  /\ forall b0' b1' b2' : byte,
       byte_val b0' * 65536 + byte_val b1' * 256 + byte_val b2' = v ->
       b0' = b0 /\ b1' = b1 /\ b2' = b2.
Proof.
  intros E v. pose proof (getDigitalValue_ok s b0 b1 b2 rest E) as V. fold v in V.
  pose proof (byte_val_range b0). pose proof (byte_val_range b1).
  pose proof (byte_val_range b2).
  split; [|split; [|split]].
  - rewrite readTempStep_eq. exact V.
  - rewrite readPressureStep_eq. exact V.
  - unfold v. lia.
  - intros b0' b1' b2' E'. unfold v in E'.
    pose proof (byte_val_range b0'). pose proof (byte_val_range b1').
    pose proof (byte_val_range b2').
    repeat split; apply byte_val_inj; lia.
Qed.

Lemma getPROMValue_ok (address : Z) s (bytes : list byte) :
  i2c_replies (dev s) (i2c_reads (dev s)) = Transferred bytes ->
  (2 <= length bytes)%nat ->
  ms5611_getPROMValue address s
  = (assembled16 bytes,
     set_dev (emit (ReadBytes (MS5611_CMD_READ_PROM_plus (address * 2)) 2 2)
                   (hw_set_i2c_reads (S (i2c_reads (dev s))) (dev s))) s).
Proof.
  intros E L. rewrite (surjective_pairing (ms5611_getPROMValue address s)).
  rewrite getPROMValue_value, getPROMValue_state. unfold readBytes. rewrite E.
  destruct bytes as [|a [|b rest]]; cbn in L; try lia. reflexivity.
Qed.

(** X7: the first [ms5611_init], on a device that answers the six PROM
    reads with at least two bytes each, stores the six words in the order
    read: [c1] from the first answer up to [c6] from the sixth, each as
    the big-endian number of its first two bytes. *)
Theorem init_loads_prom_words_in_order s (word : nat -> list byte) :
  deviceReset s = false ->
  (forall k : nat, (k < 6)%nat ->
     i2c_replies (dev s) (k + i2c_reads (dev s)) = Transferred (word k)
     /\ (2 <= length (word k))%nat) ->
  coefficients (ms5611_init s)
  = map (fun k => assembled16 (word k)) (seq 0 6).
Proof.
  intros D W. unfold ms5611_init. rewrite D. cbn [negb].
  destruct (W 0%nat ltac:(lia)) as [E0 L0]. destruct (W 1%nat ltac:(lia)) as [E1 L1].
  destruct (W 2%nat ltac:(lia)) as [E2 L2]. destruct (W 3%nat ltac:(lia)) as [E3 L3].
  destruct (W 4%nat ltac:(lia)) as [E4 L4]. destruct (W 5%nat ltac:(lia)) as [E5 L5].
  rewrite (getPROMValue_ok 0 _ (word 0%nat)) by assumption.
  rewrite (getPROMValue_ok 1 _ (word 1%nat)) by assumption.
  rewrite (getPROMValue_ok 2 _ (word 2%nat)) by assumption.
  rewrite (getPROMValue_ok 3 _ (word 3%nat)) by assumption.
  rewrite (getPROMValue_ok 4 _ (word 4%nat)) by assumption.
  rewrite (getPROMValue_ok 5 _ (word 5%nat)) by assumption.
  unfold ms5611_setTimer. now destruct TIMER2_COMPA_vect_defined.
Qed.

(** The fields after [ms5611_init]. *)
Lemma init_fields s :
  measureStep (ms5611_init s) = MS5611_STEP_READ_TEMP
  /\ newData (ms5611_init s) = false
  /\ deviceReset (ms5611_init s) = true
  /\ (exists before, trace (dev (ms5611_init s))
        = before ++ [WriteBytes MS5611_CMD_CONV_D1; Delay MS5611_CONV_DELAY])
  /\ TCNTx (dev (ms5611_init s)) = 0
  /\ OCRxA (dev (ms5611_init s)) = MS5611_INTERRUPT_COMPARE
  /\ TIMSKx (dev (ms5611_init s)) = 2
  /\ irq_enabled (dev (ms5611_init s)) = true
  /\ d1i (ms5611_init s) = d1i s /\ d2i (ms5611_init s) = d2i s
  /\ compensatedTemperature (ms5611_init s) = compensatedTemperature s
  /\ compensatedPressure (ms5611_init s) = compensatedPressure s
  /\ locked (ms5611_init s) = locked s
  /\ interruptWait (ms5611_init s) = interruptWait s.
Proof.
  unfold ms5611_init.
  set (s1 := if negb (deviceReset s) then _ else s).
  assert (F : d1i s1 = d1i s /\ d2i s1 = d2i s
              /\ compensatedTemperature s1 = compensatedTemperature s
              /\ compensatedPressure s1 = compensatedPressure s
              /\ locked s1 = locked s /\ interruptWait s1 = interruptWait s
              /\ deviceReset s1 = true).
  { unfold s1. destruct (deviceReset s) eqn:D; cbn [negb].
    - now repeat split.
    - open_prom_reads. repeat split; reflexivity. }
  clearbody s1. destruct F as (F1 & F2 & F3 & F4 & F5 & F6 & F7).
  rewrite <- F1, <- F2, <- F3, <- F4, <- F5, <- F6.
  unfold ms5611_setTimer.
  destruct TIMER2_COMPA_vect_defined; cbn; repeat split; try reflexivity;
    try exact F7; exists (trace (dev s1)); now rewrite <- app_assoc.
Qed.


End BusReads.

(** ** Invariants over every sequence of calls *)

Section Invariants.

Context {T : Target}.

Implicit Type s : ms5611.

Lemma readStep_raw s :
  raw24 (d1i s) -> raw24 (d2i s) ->
  raw24 (d1i (ms5611_readStep s)) /\ raw24 (d2i (ms5611_readStep s)).
Proof.
  intros H1 H2. pose proof (getDigitalValue_raw24 s) as V.
  rewrite readStep_cases. destruct (measureStep s =? MS5611_STEP_READ_TEMP).
  - rewrite readTempStep_eq. split; [exact V|].
    rewrite getDigitalValue_state. exact H2.
  - rewrite readPressureStep_eq. split; [|exact V].
    rewrite getDigitalValue_state. exact H1.
Qed.

Lemma release_raw s :
  raw24 (d1i s) -> raw24 (d2i s) ->
  raw24 (d1i (ms5611_release s)) /\ raw24 (d2i (ms5611_release s)).
Proof.
  intros H1 H2. destruct (interruptWait s) eqn:W.
  - rewrite release_pending by exact W.
    exact (readStep_raw (set_locked false s) H1 H2).
  - rewrite release_idle by exact W. now split.
Qed.

Lemma init_coefficients_in_range s :
  Forall coeff (coefficients s) -> Forall coeff (coefficients (ms5611_init s)).
Proof.
  intros H. destruct (deviceReset s) eqn:D.
  - destruct (calibration_view_inv _ _ (init_again_calibration s D)) as (_ & -> & _).
    exact H.
  - unfold ms5611_init. rewrite D. cbn [negb]. open_prom_reads.
    unfold ms5611_setTimer. destruct TIMER2_COMPA_vect_defined;
      unfold coefficients; cbn [c1 c2 c3 c4 c5 c6 interrupts noInterrupts on_dev
        set_dev delay ms5611_convertD1 set_newData set_measureStep set_c1 set_c2
        set_c3 set_c4 set_c5 set_c6];
      repeat (apply Forall_cons; [assumption|]); apply Forall_nil.
Qed.

Lemma call_in_range (o : op) s : in_range s -> in_range (call o s).
Proof.
  intros (HC & H1 & H2).
  assert (Keep : o <> Op_init -> Forall coeff (coefficients (call o s))).
  { intros N. destruct (call_coefficients o s) as [_ ->]; [|exact HC].
    intros ->. now elim N. }
  destruct o; cbn [call]; try (split; [apply Keep; discriminate|]);
    try (now split).
  - (* getPROMValue *) cbn [call] in Keep. rewrite getPROMValue_state. now split.
  - (* getDigitalValue *) rewrite getDigitalValue_state. now split.
  - (* readTempStep *) rewrite readTempStep_eq. split.
    + apply getDigitalValue_raw24.
    + rewrite getDigitalValue_state. exact H2.
  - (* readPressureStep *) rewrite readPressureStep_eq. split.
    + rewrite getDigitalValue_state. exact H1.
    + apply getDigitalValue_raw24.
  - (* readStep *) now apply readStep_raw.
  - (* release *) now apply release_raw.
  - (* ISR *) unfold ISR_TIMER_COMPA. destruct (locked s); [now split|].
    now apply readStep_raw.
  - (* setTimer *) unfold ms5611_setTimer. now destruct TIMER2_COMPA_vect_defined.
  - (* init *) split; [now apply init_coefficients_in_range|].
    destruct (init_fields s) as (_ & _ & _ & _ & _ & _ & _ & _ & -> & -> & _).
    now split.
  - (* updateData *) unfold ms5611_updateData.
    exact (release_raw (set_newData false (ms5611_lock s)) H1 H2).
Qed.

(** X9: from power-on, after any sequence of calls of the driver's
    functions, whatever the device answers, every coefficient lies in
    0..65535 and both raw values lie in 0..16777215: the inputs of the
    compensation are always in the ranges for which its 64-bit
    intermediates are exact. *)
Theorem variables_stay_in_range (h : hw) (ops : list op) :
  in_range (calls ops (power_on h)).
Proof.
  assert (G : forall s, in_range s -> in_range (calls ops s)).
  { induction ops as [|o ops IH]; intros s H; [exact H|].
    change (calls (o :: ops) s) with (calls ops (call o s)).
    apply IH. now apply call_in_range. }
  apply G. unfold in_range, coefficients, coeff, raw24. cbn.
  split; [|lia]. repeat (apply Forall_cons; [lia|]). apply Forall_nil.
Qed.

Lemma call_wait_implies_locked (o : op) s :
  implb (interruptWait s) (locked s) = true ->
  implb (interruptWait (call o s)) (locked (call o s)) = true.
Proof.
  intros H. destruct o; cbn [call]; try exact H.
  - now rewrite getPROMValue_state.
  - now rewrite getDigitalValue_state.
  - now rewrite readTempStep_eq, getDigitalValue_state.
  - now rewrite readPressureStep_eq, getDigitalValue_state.
  - destruct (readStep_frame s) as (-> & -> & _). exact H.
  - cbn. now destruct (interruptWait s).
  - now rewrite release_interruptWait.
  - unfold ISR_TIMER_COMPA. destruct (locked s) eqn:L; [exact L|].
    destruct (readStep_frame (interrupts s)) as (-> & -> & _).
    change (implb (interruptWait s) (locked s) = true). rewrite L. exact H.
  - unfold ms5611_setTimer. now destruct TIMER2_COMPA_vect_defined.
  - destruct (init_fields s) as (_ & _ & _ & _ & _ & _ & _ & _ & _ & _ & _ & _ & -> & ->).
    exact H.
  - unfold ms5611_updateData.
    change (implb (interruptWait (ms5611_release (set_newData false (ms5611_lock s))))
                  (locked (ms5611_release (set_newData false (ms5611_lock s)))) = true).
    now rewrite release_interruptWait.
Qed.

(** X10: from power-on, after any sequence of calls, a deferred step is
    pending only while the mutex is locked: [interruptWait] implies
    [locked]. *)
Theorem pending_step_only_while_locked (h : hw) (ops : list op) :
  implb (interruptWait (calls ops (power_on h)))
        (locked (calls ops (power_on h))) = true.
Proof.
  assert (G : forall s, implb (interruptWait s) (locked s) = true ->
                        implb (interruptWait (calls ops s)) (locked (calls ops s)) = true).
  { induction ops as [|o ops IH]; intros s H; [exact H|].
    change (calls (o :: ops) s) with (calls ops (call o s)).
    apply IH. now apply call_wait_implies_locked. }
  now apply G.
Qed.

End Invariants.

(** ** The sampler under every schedule of calls *)

Section Schedule.

Context {T : Target}.

Implicit Type s : ms5611.

Lemma last_conversion_app (t : list event) (e : event) :
  last_conversion (t ++ [e])
  = match conversion_of e with
    | Some r => Some r
    | None => last_conversion t
    end.
Proof.
  induction t as [|e' t IH]; cbn [app last_conversion].
  - now destruct (conversion_of e).
  - rewrite IH. now destruct (conversion_of e).
Qed.

Lemma idle_refl s : idle_between s s.
Proof. now repeat split. Qed.

Lemma idle_trans s s1 s2 :
  idle_between s s1 -> idle_between s1 s2 -> idle_between s s2.
Proof.
  intros (A1 & A2 & A3 & A4) (B1 & B2 & B3 & B4).
  repeat split; try congruence. auto.
Qed.

Lemma idle_then_stepped s s1 s2 :
  idle_between s s1 -> stepped_between s1 s2 -> stepped_between s s2.
Proof.
  intros (A1 & A2 & A3 & A4) (B1 & B2 & B3 & B4). rewrite A1 in *.
  repeat split; try congruence. intros H. destruct (B4 H); auto.
Qed.

Lemma stepped_then_idle s s1 s2 :
  stepped_between s s1 -> idle_between s1 s2 -> stepped_between s s2.
Proof.
  intros (A1 & A2 & A3 & A4) (B1 & B2 & B3 & B4).
  repeat split; try congruence. auto.
Qed.

Lemma readStep_stepped s : stepped_between s (ms5611_readStep s).
Proof.
  repeat split.
  - rewrite readStep_cases. now destruct (measureStep s =? MS5611_STEP_READ_TEMP).
  - apply steps_done_readStep.
  - rewrite readStep_trace.
    change [ReadBytes MS5611_CMD_ADC_READ 3 ?c; ?w] with ([ReadBytes MS5611_CMD_ADC_READ 3 c] ++ [w]).
    rewrite app_assoc, last_conversion_app.
    now destruct (measureStep s =? MS5611_STEP_READ_TEMP).
  - rewrite readStep_newData.
    destruct (measureStep s =? MS5611_STEP_READ_TEMP); auto.
Qed.

(** An event that is neither a conversion command nor a read of a
    converted value. *)
Lemma emit_idle (e : event) s :
  conversion_of e = None -> is_adc_read e = false ->
  idle_between s (on_dev (emit e) s).
Proof.
  intros C A. repeat split.
  - unfold steps_done. cbn. rewrite filter_app. cbn. rewrite A.
    now rewrite app_nil_r.
  - cbn. rewrite last_conversion_app. now rewrite C.
  - auto.
Qed.

Lemma release_progress s :
  idle_between s (ms5611_release s) \/ stepped_between s (ms5611_release s).
Proof.
  destruct (interruptWait s) eqn:W.
  - right. rewrite release_pending by exact W.
    apply idle_then_stepped with (s1 := set_locked false s); [now repeat split|].
    apply stepped_then_idle with (s1 := ms5611_readStep (set_locked false s));
      [apply readStep_stepped | now repeat split].
  - left. rewrite release_idle by exact W. now repeat split.
Qed.

Lemma call_progress (o : op) s :
  runs_whole_steps o = true ->
  idle_between s (call o s) \/ stepped_between s (call o s).
Proof.
  intros R. destruct o; try discriminate R; cbn [call];
    try (left; apply idle_refl).
  - (* resetCommand *) left. now apply emit_idle.
  - (* getPROMValue *) left. rewrite getPROMValue_state, readBytes_dev.
    repeat split.
    + unfold steps_done. cbn. rewrite filter_app. cbn. now rewrite app_nil_r.
    + cbn. now rewrite last_conversion_app.
    + auto.
  - (* readStep *) right. apply readStep_stepped.
  - (* lock *) left. now repeat split.
  - (* release *) apply release_progress.
  - (* ISR *) unfold ISR_TIMER_COMPA. destruct (locked s).
    + left. now repeat split.
    + right. apply idle_then_stepped with (s1 := interrupts s);
        [now repeat split | apply readStep_stepped].
  - (* setTimer *) left. unfold ms5611_setTimer.
    destruct TIMER2_COMPA_vect_defined; now repeat split.
  - (* updateData *) unfold ms5611_updateData.
    set (s1 := set_newData false (ms5611_lock s)).
    assert (I1 : idle_between s s1) by (repeat split; discriminate).
    set (r := compensate _ _ _ _ _ _ _ _). clearbody r.
    assert (I2 : idle_between (ms5611_release s1) (save_result r (ms5611_release s1)))
      by (now repeat split).
    destruct (release_progress s1) as [I | S].
    + left. eapply idle_trans; [exact I1|]. eapply idle_trans; eassumption.
    + right. eapply idle_then_stepped; [exact I1|].
      eapply stepped_then_idle; eassumption.
Qed.

(** The invariant behind the next two theorems: [b] is the number of steps
    done when the sampler was last initialised. *)
Lemma schedule_invariant (ops : list op) (b : nat) s :
  forallb runs_whole_steps ops = true ->
  (b <= steps_done s)%nat ->
  measureStep s = (if Nat.even (steps_done s - b)
                   then MS5611_STEP_READ_TEMP else MS5611_STEP_READ_PRESSURE) ->
  (newData s = true -> (2 <= steps_done s - b)%nat) ->
  last_conversion (trace (dev s))
  = Some (if measureStep s =? MS5611_STEP_READ_TEMP
          then MS5611_CMD_CONV_D1 else MS5611_CMD_CONV_D2) ->
  let s' := calls ops s in
  (b <= steps_done s')%nat
  /\ measureStep s' = (if Nat.even (steps_done s' - b)
                       then MS5611_STEP_READ_TEMP else MS5611_STEP_READ_PRESSURE)
  /\ (newData s' = true -> (2 <= steps_done s' - b)%nat)
  /\ last_conversion (trace (dev s'))
     = Some (if measureStep s' =? MS5611_STEP_READ_TEMP
             then MS5611_CMD_CONV_D1 else MS5611_CMD_CONV_D2).
Proof.
  revert s. induction ops as [|o ops IH]; intros s R B M N L; [now repeat split|].
  cbn [forallb] in R. apply andb_prop in R. destruct R as [R1 R2].
  change (calls (o :: ops) s) with (calls ops (call o s)).
  destruct (call_progress o s R1) as [(A1 & A2 & A3 & A4) | (A1 & A2 & A3 & A4)].
  - apply IH; try assumption; rewrite ?A1, ?A2, ?A3; auto.
  - assert (K : (steps_done (call o s) - b = S (steps_done s - b))%nat) by lia.
    apply IH; try assumption; rewrite ?K.
    + lia.
    + rewrite A1, M, Nat.even_succ, <- Nat.negb_even.
      now destruct (Nat.even (steps_done s - b)).
    + intros H. destruct (A4 H) as [H' | H'].
      * specialize (N H'). lia.
      * rewrite M in H'. destruct (steps_done s - b)%nat; [discriminate H' | lia].
    + rewrite A3, A1. now destruct (measureStep s =? MS5611_STEP_READ_TEMP).
Qed.

Lemma init_establishes s :
  measureStep (ms5611_init s) = MS5611_STEP_READ_TEMP
  /\ newData (ms5611_init s) = false
  /\ last_conversion (trace (dev (ms5611_init s))) = Some MS5611_CMD_CONV_D1.
Proof.
  destruct (init_fields s) as (A1 & A2 & _ & (before & A4) & _).
  repeat split; try assumption.
  rewrite A4.
  change [WriteBytes MS5611_CMD_CONV_D1; Delay MS5611_CONV_DELAY]
    with ([WriteBytes MS5611_CMD_CONV_D1] ++ [Delay MS5611_CONV_DELAY]).
  now rewrite app_assoc, !last_conversion_app.
Qed.

(** X11: after [ms5611_init], for every sequence of complete calls of the
    handler, of lock, release and update and of the step itself, each
    running to completion before the next, the timer never firing inside
    one, the sampler state is the parity of the number of steps done
    since: [MS5611_STEP_READ_TEMP] after an even number,
    [MS5611_STEP_READ_PRESSURE] after an odd one; and [newData] is never
    true before two steps, one read of each value, have been done. *)
Theorem sampler_parity_under_any_schedule s (ops : list op) :
  forallb runs_whole_steps ops = true ->
  let s1 := ms5611_init s in
  let s2 := calls ops s1 in
  (steps_done s1 <= steps_done s2)%nat
  /\ measureStep s2
     = (if Nat.even (steps_done s2 - steps_done s1)
        then MS5611_STEP_READ_TEMP else MS5611_STEP_READ_PRESSURE)
  /\ (ms5611_dataReady s2 = true -> (2 <= steps_done s2 - steps_done s1)%nat).
Proof.
  intros R s1 s2. destruct (init_establishes s) as (M & N & L).
  fold s1 in M, N, L.
  destruct (schedule_invariant ops (steps_done s1) s1 R) as (A & B & C & _).
  - lia.
  - now rewrite Nat.sub_diag.
  - rewrite N. discriminate.
  - now rewrite L, M.
  - fold s2 in A, B, C. now repeat split.
Qed.

(** X12: after [ms5611_init], for every such sequence of complete calls,
    the value a step reads goes to the variable of the conversion that was
    started last:
    when the last conversion command on the bus is that of D1 the next
    step stores its read in [d1i] and leaves [d2i], when it is that of D2
    the next step stores its read in [d2i] and leaves [d1i]. *)
Theorem read_goes_to_last_conversion s (ops : list op) :
  forallb runs_whole_steps ops = true ->
  let s2 := calls ops (ms5611_init s) in
  (last_conversion (trace (dev s2)) = Some MS5611_CMD_CONV_D1
   /\ d1i (ms5611_readStep s2) = fst (ms5611_getDigitalValue s2)
   /\ d2i (ms5611_readStep s2) = d2i s2)
  \/ (last_conversion (trace (dev s2)) = Some MS5611_CMD_CONV_D2
      /\ d2i (ms5611_readStep s2) = fst (ms5611_getDigitalValue s2)
      /\ d1i (ms5611_readStep s2) = d1i s2).
Proof.
  intros R s2. destruct (init_establishes s) as (M & N & L).
  destruct (schedule_invariant ops (steps_done (ms5611_init s)) (ms5611_init s) R)
    as (_ & _ & _ & D).
  - lia.
  - now rewrite Nat.sub_diag.
  - rewrite N. discriminate.
  - now rewrite L, M.
  - fold s2 in D. rewrite readStep_cases.
    destruct (measureStep s2 =? MS5611_STEP_READ_TEMP).
    + left. split; [exact D|]. rewrite readTempStep_eq. split; [reflexivity|].
      now rewrite getDigitalValue_state.
    + right. split; [exact D|]. rewrite readPressureStep_eq. split; [reflexivity|].
      now rewrite getDigitalValue_state.
Qed.

End Schedule.

(** ** The mutex and the update routine *)

Section Mutex.

Context {T : Target}.

Implicit Type s : ms5611.

(** X13: the mutex does not count.  However many times [ms5611_lock] is
    called, one [ms5611_release] frees it; and with no step pending a lock
    followed by a release changes nothing but [locked], so that on a free
    mutex the pair leaves the whole state as it was. *)
Theorem one_release_frees_the_mutex (n : nat) s :
  locked (ms5611_release (Nat.iter (S n) ms5611_lock s)) = false
  /\ Nat.iter (S n) ms5611_lock s = ms5611_lock s
  /\ ms5611_release (ms5611_lock s)
     = (if interruptWait s
        then set_interruptWait false
               (on_dev (hw_set_TCNTx 0) (ms5611_readStep (set_locked false s)))
        else if locked s then set_locked false s else s).
Proof.
  split; [apply release_locked|]. split.
  - induction n as [|n IH]; [reflexivity|]. rewrite Nat.iter_succ, IH. reflexivity.
  - destruct (interruptWait s) eqn:W.
    + rewrite release_pending by exact W. reflexivity.
    + rewrite release_idle by exact W. destruct s. cbn in *.
      destruct locked0; reflexivity.
Qed.

(** X14: when no timer interrupt arrives during the call, on return from
    [ms5611_updateData] the flag [newData] is set exactly when a step was
    pending at the call and that step was the one that reads the second
    value: the deferred step runs after the flag was cleared and can set it
    again. *)
Theorem updateData_leaves_newData s :
  ms5611_dataReady (ms5611_updateData s)
  = interruptWait s && negb (measureStep s =? MS5611_STEP_READ_TEMP).
Proof.
  unfold ms5611_dataReady, ms5611_updateData.
  set (s1 := set_newData false (ms5611_lock s)).
  set (r := compensate _ _ _ _ _ _ _ _). clearbody r.
  change (newData (ms5611_release s1)
          = interruptWait s && negb (measureStep s =? MS5611_STEP_READ_TEMP)).
  destruct (interruptWait s) eqn:W.
  - rewrite release_pending by exact W.
    change (newData (ms5611_readStep (set_locked false s1))
            = negb (measureStep s =? MS5611_STEP_READ_TEMP)).
    rewrite readStep_newData.
    change (measureStep (set_locked false s1)) with (measureStep s).
    now destruct (measureStep s =? MS5611_STEP_READ_TEMP).
  - rewrite release_idle by exact W. reflexivity.
Qed.

(** X15: however many times the timer fires during one critical section,
    the release runs one step only: of [k + 1] ticks, [k] are dropped. *)
Theorem ticks_in_one_critical_section_give_one_step (k : nat) s :
  locked s = true ->
  let s' := ms5611_release (Nat.iter (S k) ISR_TIMER_COMPA s) in
  steps_done (Nat.iter (S k) ISR_TIMER_COMPA s) = steps_done s
  /\ steps_done s' = S (steps_done s)
  /\ interruptWait s' = false
  /\ locked s' = false.
Proof.
  intros L s'. unfold s'. rewrite ticks_while_locked by exact L.
  split; [reflexivity|]. split; [|split].
  - rewrite release_pending by reflexivity.
    change (steps_done (ms5611_readStep (set_locked false (set_interruptWait true s)))
            = S (steps_done s)).
    now rewrite steps_done_readStep.
  - apply release_interruptWait.
  - apply release_locked.
Qed.

End Mutex.

(** ** Where the stored temperature is the reference one *)

(** X16: for coefficients and raw samples in their ranges, the temperature
    the code stores is the one of the reference algorithm exactly when the
    reference first-order temperature lies between 1744 and 2255, that is
    between 17.44 and 22.55 degrees Celsius; in that range the pressure is
    the reference one too. *)
Theorem stored_temperature_exact_iff (c1 c2 c3 c4 c5 c6 d1 d2 : Z) :
  coeff c1 -> coeff c2 -> coeff c3 -> coeff c4 -> coeff c5 -> coeff c6 ->
  raw24 d1 -> raw24 d2 ->
  (out_temp (compensate c1 c2 c3 c4 c5 c6 d1 d2)
   = Reference.TEMP (Reference.compensate c1 c2 c3 c4 c5 c6 d1 d2)
   <-> 1744 <= Reference.TEMP1 c5 c6 d2 <= 2255)
  /\ (1744 <= Reference.TEMP1 c5 c6 d2 <= 2255 ->
      out_p (compensate c1 c2 c3 c4 c5 c6 d1 d2)
      = Reference.P (Reference.compensate c1 c2 c3 c4 c5 c6 d1 d2)).
Proof.
  intros Hc1 Hc2 Hc3 Hc4 Hc5 Hc6 Hd1 Hd2.
  assert (Fit : 1744 <= Reference.TEMP1 c5 c6 d2 <= 2255 ->
                fits_int32 (c6 * Reference.dT c5 d2)).
  { unfold Reference.TEMP1, fits_int32, fits_sint.
    change (2 ^ (32 - 1)) with 2147483648. shifts. intros H. divlia. }
  split; [split|].
  - intros E.
    pose proof (first_order_dt c1 c2 c3 c4 c5 c6 d2 Hc5 Hd2) as Edt.
    pose proof (first_order_off c1 c2 c3 c4 c5 c6 d2 Hc2 Hc4 Hc5 Hd2) as Eoff.
    pose proof (first_order_sens c1 c2 c3 c4 c5 c6 d2 Hc1 Hc3 Hc5 Hd2) as Esens.
    pose proof (first_order_temp_range c1 c2 c3 c4 c5 c6 d2 Hc5 Hc6 Hd2) as Rtemp.
    pose proof (dT_range c5 d2 Hc5 Hd2) as Rdt.
    pose proof (OFF1_range c2 c4 c5 d2 Hc2 Hc4 Hc5 Hd2) as Roff.
    pose proof (SENS1_range c1 c3 c5 d2 Hc1 Hc3 Hc5 Hd2) as Rsens.
    revert E. unfold compensate, Reference.compensate.
    set (f := compute_first_order c1 c2 c3 c4 c5 c6 d2) in *.
    change (out_temp (compute_pressure d1 (second_order f)))
      with (fo_temp (second_order f)).
    rewrite (second_order_exact f) by lia. rewrite Edt.
    assert (RT2 : 0 <= Reference.T2 (Reference.dT c5 d2) <= 131072).
    { unfold Reference.T2.
      pose proof (square_bound (Reference.dT c5 d2) 16777216 ltac:(lia)).
      shifts. divlia. }
    set (t1 := Reference.TEMP1 c5 c6 d2).
    destruct (fo_temp f <? 2000) eqn:E1; destruct (t1 <? 2000) eqn:E2;
      cbn [fo_temp Reference.TEMP]; intros E;
      rewrite ?Z.ltb_lt, ?Z.ltb_ge in E1, E2; lia.
  - intros H.
    apply (compensate_exact_when_product_fits c1 c2 c3 c4 c5 c6 d1 d2); auto.
  - intros H.
    apply (compensate_exact_when_product_fits c1 c2 c3 c4 c5 c6 d1 d2); auto.
Qed.

(** ** The altitude over the real numbers *)

Section AltitudeShape.

Local Open Scope R_scope.

Variables (base : R) (compare : Z) (timer2 : bool).
Hypothesis base_pos : 0 < base.

(** X17: with real arithmetic for [double] and a positive reference
    pressure in the header, the altitude is zero when the stored pressure
    is the reference pressure, positive when it is lower and negative when
    it is higher. *)
Theorem altitude_sign (s : @ms5611 (real_target base compare timer2)) :
  0 < compensatedPressure s ->
  (compensatedPressure s = base -> ms5611_getAltitude s = 0)
  /\ (compensatedPressure s < base -> 0 < ms5611_getAltitude s)
  /\ (base < compensatedPressure s -> ms5611_getAltitude s < 0).
Proof.
  intros Hp. rewrite getAltitude_real.
  set (p := compensatedPressure s) in *. change (@double (real_target base compare timer2)) with R in p.
  unfold barometric_altitude.
  assert (K : 0 < 288.15 / 0.0065) by lra.
  assert (E1 : Rpower 1 0.1902949572 = 1) by apply Rpower_base_1.
  assert (Hq : 0 < p / base) by (apply Rdiv_lt_0_compat; assumption).
  rewrite (real_pow_pos (p / base)) by exact Hq.
  repeat split; intros H.
  - rewrite H. replace (base / base) with 1 by (field; lra). rewrite E1. lra.
  - assert (L : Rpower (p / base) 0.1902949572 < Rpower 1 0.1902949572).
    { apply Rlt_Rpower_l; [lra|]. split; [exact Hq|].
      apply Rmult_lt_reg_r with (r := base); [exact base_pos|].
      unfold Rdiv. rewrite Rmult_assoc, Rinv_l by lra. lra. }
    rewrite E1 in L. apply Rmult_lt_0_compat; lra.
  - assert (L : Rpower 1 0.1902949572 < Rpower (p / base) 0.1902949572).
    { apply Rlt_Rpower_l; [lra|]. split; [lra|].
      apply Rmult_lt_reg_r with (r := base); [exact base_pos|].
      unfold Rdiv. rewrite Rmult_assoc, Rinv_l by lra. lra. }
    rewrite E1 in L.
    assert (0 < (288.15 / 0.0065) * (Rpower (p / base) 0.1902949572 - 1))
      by (apply Rmult_lt_0_compat; lra).
    lra.
Qed.

(** X18: with real arithmetic for [double] and a positive reference
    pressure, the altitude is a strictly decreasing function of the stored
    pressure. *)
Theorem altitude_decreases_with_pressure (s s' : @ms5611 (real_target base compare timer2)) :
  0 < compensatedPressure s ->
  compensatedPressure s < compensatedPressure s' ->
  ms5611_getAltitude s' < ms5611_getAltitude s.
Proof.
  intros Hp Hlt. rewrite !getAltitude_real.
  set (p := compensatedPressure s) in *. set (p' := compensatedPressure s') in *.
  change (@double (real_target base compare timer2)) with R in p, p'.
  unfold barometric_altitude.
  rewrite (real_pow_pos (p / base)) by (apply Rdiv_lt_0_compat; assumption).
  rewrite (real_pow_pos (p' / base)) by (apply Rdiv_lt_0_compat; [lra | assumption]).
  assert (L : Rpower (p / base) 0.1902949572 < Rpower (p' / base) 0.1902949572).
  { apply Rlt_Rpower_l; [lra|]. split; [apply Rdiv_lt_0_compat; assumption|].
    apply Rmult_lt_compat_r; [apply Rinv_0_lt_compat; exact base_pos | exact Hlt]. }
  apply Rmult_lt_compat_l; lra.
Qed.

End AltitudeShape.

(** ** The further properties at concrete inputs

    The compensation is evaluated at the example of the data sheet:
    coefficients 40127, 36924, 23317, 23282, 33464, 28312 and raw values
    9085466 and 8569150, for which [TEMP] is 2007 and the pressure
    1000.09 hPa. *)

Ltac in_ranges := unfold coeff, raw24; lia.

Lemma first_order_dt_off_sens_exact_witness :
  coeff 40127 /\ coeff 33464 /\ raw24 8569150
  /\ fo_dt (compute_first_order 40127 36924 23317 23282 33464 28312 8569150)
     = 8569150 - 33464 * 256.
Proof.
  split; [in_ranges | split; [in_ranges | split; [in_ranges|]]].
  apply (first_order_dt_off_sens_exact 40127 36924 23317 23282 33464 28312 8569150);
    in_ranges.
Defined.

Lemma compensate_wraps_only_in_c6s_witness :
  coeff 28312 /\ raw24 9085466 /\ raw24 9000000
  /\ compensate 40127 36924 23317 23282 33464 28312 9085466 9000000
     = unbounded_from_temp
         (2000 + Z.shiftr (to_int32 (28312 * (9000000 - 33464 * 256))) 23)
         40127 36924 23317 23282 33464 9085466 9000000.
Proof.
  split; [in_ranges | split; [in_ranges | split; [in_ranges|]]].
  apply compensate_wraps_only_in_c6s; in_ranges.
Defined.

Lemma stored_temperature_bounds_witness :
  coeff 28312 /\ raw24 16777215
  /\ -129328
     <= out_temp (compensate 40127 36924 23317 23282 33464 28312 9085466 16777215)
     <= 2255.
Proof.
  split; [in_ranges | split; [in_ranges|]].
  apply stored_temperature_bounds; in_ranges.
Defined.

Lemma zero_coefficients_give_constant_output_witness :
  raw24 9085466 /\ raw24 8569150
  /\ compensate 0 0 0 0 0 0 9085466 8569150 = {| out_temp := 2000; out_p := 0 |}.
Proof.
  split; [in_ranges | split; [in_ranges|]].
  apply zero_coefficients_give_constant_output; in_ranges.
Defined.

Lemma second_order_block_cases_witness :
  -16776960 <= -1185167 <= 16777215 /\ -140000 <= -2001 <= 140000
  /\ second_order {| fo_dt := -1185167; fo_temp := -2001;
                     fo_off := 2204280497; fo_sens := 1206934118 |}
     = {| fo_dt := -1185167;
          fo_temp := -2001 - (-1185167 * -1185167) / 2147483648;
          fo_off := 2204280497
                    - (5 * ((-2001 - 2000) * (-2001 - 2000)) / 2
                       + 7 * ((-2001 + 1500) * (-2001 + 1500)));
          fo_sens := 1206934118
                     - (5 * ((-2001 - 2000) * (-2001 - 2000)) / 4
                        + 11 * ((-2001 + 1500) * (-2001 + 1500)) / 2) |}.
Proof.
  split; [lia | split; [lia|]].
  apply (second_order_block_cases (-1185167) (-2001) 2204280497 1206934118); lia.
Defined.

Lemma raw_read_is_big_endian_witness :
  let s := @power_on bench_target answering_hw in
  i2c_replies (dev s) (i2c_reads (dev s)) = Transferred [x8a; xa2; x1a]
  /\ d1i (ms5611_readTempStep s)
     = byte_val x8a * 65536 + byte_val xa2 * 256 + byte_val x1a
  /\ d2i (ms5611_readPressureStep s)
     = byte_val x8a * 65536 + byte_val xa2 * 256 + byte_val x1a.
Proof.
  intros s.
  pose proof (raw_read_is_big_endian s x8a xa2 x1a [] eq_refl) as (A & B & _).
  split; [reflexivity | split; [exact A | exact B]].
Defined.

Lemma init_loads_prom_words_in_order_witness :
  let s := @power_on bench_target answering_hw in
  deviceReset s = false
  /\ coefficients (ms5611_init s)
     = map (fun _ : nat => assembled16 [x8a; xa2; x1a]) (seq 0 6).
Proof.
  intros s. split; [reflexivity|].
  apply (init_loads_prom_words_in_order s (fun _ => [x8a; xa2; x1a])).
  - reflexivity.
  - intros k Hk. split; [reflexivity | cbn; lia].
Defined.

Lemma sampler_parity_under_any_schedule_witness :
  let s := @power_on bench_target answering_hw in
  let ops := [Op_ISR; Op_lock; Op_ISR; Op_release; Op_updateData; Op_ISR] in
  forallb runs_whole_steps ops = true
  /\ measureStep (calls ops (ms5611_init s))
     = (if Nat.even (steps_done (calls ops (ms5611_init s))
                     - steps_done (ms5611_init s))
        then MS5611_STEP_READ_TEMP else MS5611_STEP_READ_PRESSURE).
Proof.
  intros s ops. split; [reflexivity|].
  exact (proj1 (proj2 (sampler_parity_under_any_schedule s ops eq_refl))).
Defined.

Lemma read_goes_to_last_conversion_witness :
  let s := @power_on bench_target answering_hw in
  let ops := [Op_ISR; Op_lock; Op_ISR; Op_release; Op_updateData] in
  let s2 := calls ops (ms5611_init s) in
  forallb runs_whole_steps ops = true
  /\ ((last_conversion (trace (dev s2)) = Some MS5611_CMD_CONV_D1
       /\ d1i (ms5611_readStep s2) = fst (ms5611_getDigitalValue s2)
       /\ d2i (ms5611_readStep s2) = d2i s2)
      \/ (last_conversion (trace (dev s2)) = Some MS5611_CMD_CONV_D2
          /\ d2i (ms5611_readStep s2) = fst (ms5611_getDigitalValue s2)
          /\ d1i (ms5611_readStep s2) = d1i s2)).
Proof.
  intros s ops s2. split; [reflexivity|].
  exact (read_goes_to_last_conversion s ops eq_refl).
Defined.

Lemma ticks_in_one_critical_section_give_one_step_witness :
  let s := ms5611_lock (@power_on bench_target answering_hw) in
  locked s = true
  /\ steps_done (ms5611_release (Nat.iter 3 ISR_TIMER_COMPA s)) = S (steps_done s).
Proof.
  intros s. split; [reflexivity|].
  exact (proj1 (proj2 (ticks_in_one_critical_section_give_one_step 2 s eq_refl))).
Defined.

Lemma stored_temperature_exact_iff_witness :
  coeff 28312 /\ raw24 8569150
  /\ 1744 <= Reference.TEMP1 33464 28312 8569150 <= 2255
  /\ out_temp (compensate 40127 36924 23317 23282 33464 28312 9085466 8569150)
     = Reference.TEMP
         (Reference.compensate 40127 36924 23317 23282 33464 28312 9085466 8569150).
Proof.
  assert (R : 1744 <= Reference.TEMP1 33464 28312 8569150 <= 2255)
    by (vm_compute; split; discriminate).
  split; [in_ranges | split; [in_ranges | split; [exact R|]]].
  assert (H1 : coeff 40127) by in_ranges. assert (H2 : coeff 36924) by in_ranges.
  assert (H3 : coeff 23317) by in_ranges. assert (H4 : coeff 23282) by in_ranges.
  assert (H5 : coeff 33464) by in_ranges. assert (H6 : coeff 28312) by in_ranges.
  assert (D1 : raw24 9085466) by in_ranges. assert (D2 : raw24 8569150) by in_ranges.
  exact (proj2 (proj1 (stored_temperature_exact_iff
                         40127 36924 23317 23282 33464 28312 9085466 8569150
                         H1 H2 H3 H4 H5 H6 D1 D2)) R).
Defined.

Lemma altitude_sign_witness :
  let s := @set_compensatedPressure real_bench_target 900%R
             (power_on answering_hw) in
  (0 < 1013.25)%R /\ (0 < 900)%R /\ (900 < 1013.25)%R
  /\ (0 < ms5611_getAltitude s)%R.
Proof.
  intros s.
  assert (B : (0 < 1013.25)%R) by lra.
  assert (P : (0 < 900)%R) by lra.
  assert (L : (900 < 1013.25)%R) by lra.
  split; [exact B | split; [exact P | split; [exact L|]]].
  exact (proj1 (proj2 (altitude_sign 1013.25%R 124 true B s P)) L).
Defined.

Lemma altitude_decreases_with_pressure_witness :
  let s := @set_compensatedPressure real_bench_target 900%R
             (power_on answering_hw) in
  let s' := @set_compensatedPressure real_bench_target 950%R
              (power_on answering_hw) in
  (0 < 1013.25)%R /\ (0 < 900)%R /\ (900 < 950)%R
  /\ (ms5611_getAltitude s' < ms5611_getAltitude s)%R.
Proof.
  intros s s'.
  assert (B : (0 < 1013.25)%R) by lra.
  assert (P : (0 < 900)%R) by lra.
  assert (L : (900 < 950)%R) by lra.
  split; [exact B | split; [exact P | split; [exact L|]]].
  exact (altitude_decreases_with_pressure 1013.25%R 124 true B s s' P L).
Defined.
